(** * XAD Python bindings: the free functions, the Python-side additions to
    [Tape] and [Real], and the adjoint tape they drive.

    The package [xad_autodiff] is a thin Python layer over a compiled
    extension module [_xad_autodiff].  The Python layer is embedded here
    function by function.  The extension module is not part of the Python
    sources; the operations of it that the Python layer and the test
    scenarios call are modelled from the design document of the engine, and
    every such definition says so. *)

From Stdlib Require Import ZArith String Floats.
From stdpp Require Import base option list gmap.

#[local] Set Warnings "-inexact-float".
#[local] Open Scope Z_scope.

(** ** Values *)

(** A Python [float] is an IEEE-754 double: the kernel's binary64 floats. *)
Definition float_zero : float := 0%float.
Definition float_one : float := 1%float.

(** [float(z)] for a Python [int]: the nearest double, ties to even.
    (CPython raises [OverflowError] where this gives an infinity.) *)
Definition float_of_int (z : Z) : float :=
  SF2Prim (binary_normalize 53 1024 z 0 false).
Arguments float_of_int : simpl never.

(** Object identities: adjoint variables and tapes live in a store, threads
    are numbered.  A slot indexes the derivative array of a tape. *)
Abbreviation loc := nat (only parsing).
Abbreviation tape_id := nat (only parsing).
Abbreviation thread := nat (only parsing).
Abbreviation slot := nat (only parsing).

(** Modelled from the spec: the class [fwd_1st.Real] of the extension module
    (section 3, forward variable): value plus derivative, self-contained. *)
Record FReal := mkFReal {
  fwd_value : float;
  fwd_derivative : float;
}.

(** Modelled from the spec: the class [adj_1st.Real] of the extension module
    (section 3, adjoint variable, and section 5 for the reference back to the
    tape): a value and, once registered, the tape that owns the registration
    and the slot there. *)
Record AReal := mkAReal {
  adj_value : float;
  adj_registration : option (tape_id * slot);
}.

(** The Python objects that reach the free functions of the package. *)
Inductive pyobj :=
| PyNone
| PyBool (b : bool)
| PyInt (z : Z)
| PyFloat (f : float)
| PyStr (s : string)
| PyAReal (l : loc)
| PyFReal (r : FReal).

(** [type(x).__name__] *)
Definition type_name (x : pyobj) : string :=
  match x with
  | PyNone => "NoneType"
  | PyBool _ => "bool"
  | PyInt _ => "int"
  | PyFloat _ => "float"
  | PyStr _ => "str"
  | PyAReal _ => "Real"
  | PyFReal _ => "Real"
  end.

(** ** Exceptions *)

(** The four conditions that [xad_autodiff/exceptions/__init__.py] exports
    next to their base class [XadException], and the builtin [TypeError] with
    its message. *)
Inductive exn :=
| TapeAlreadyActive
| OutOfRange
| DerivativesNotInitialized
| NoTapeException
| TypeError (msg : string).

(** [isinstance(e, XadException)] *)
Definition XadException (e : exn) : bool :=
  match e with
  | TypeError _ => false
  | _ => true
  end.

(** ** The tape *)

(** Modelled from the spec: the operation kind of a tape entry (section 3),
    for the registration of an input and the two operators the scenarios
    use. *)
Inductive op_kind := OpInput | OpAdd | OpMul.

(** Modelled from the spec: a tape entry (section 3): the operation kind,
    the operand slots with the local partial derivatives at the recorded
    point, and the slot of the result. *)
Record entry := mkEntry {
  kind : op_kind;
  inputs : list (slot * float);
  output : slot;
}.

(** Modelled from the spec: the tape object of the extension module (data
    model, section 3).  The entry log, the derivative array, the active flag,
    the baseline of the last [newRecording], and whether a derivative has
    been seeded.  A position is a length of the log; every slot is allocated
    together with the entry that defines it, so that the same integer also
    marks a prefix of the slot table. *)
Record Tape := mkTape {
  entries : list entry;
  derivatives : list float;
  active : bool;
  recording_start : nat;
  seeded : bool;
}.

(** Modelled from the spec: the tape [Tape()] creates: nothing recorded, not
    active. *)
Definition Tape_empty : Tape :=
  {| entries := []; derivatives := []; active := false;
     recording_start := 0%nat; seeded := false |}.

(** ** The interpreter state *)

(** Modelled from the spec: what the calls act on: the adjoint variables and
    the tapes that exist, as objects with an identity, and the registry that
    gives every thread its active tape, if it has one (section 5). *)
Record World := mkWorld {
  areals : list AReal;
  tapes : list Tape;
  active_tape : gmap thread tape_id;
}.

(** A fresh interpreter. *)
Definition World_init : World :=
  {| areals := []; tapes := []; active_tape := ∅ |}.

(** ** Computations *)

(** A call returns, raises, or is outside what the design document fixes
    (a caller error it names no condition for). *)
Inductive outcome (A : Type) :=
| Ok (a : A)
| Raise (e : exn)
| Undefined.
Arguments Ok {A} a.
Arguments Raise {A} e.
Arguments Undefined {A}.

(** A call runs in a state and leaves one, also when it raises. *)
Definition M (A : Type) : Type := World -> outcome A * World.

Definition ret {A} (a : A) : M A := fun w => (Ok a, w).

Definition bind {A B} (c : M A) (k : A -> M B) : M B :=
  fun w =>
    match c w with
    | (Ok a, w') => k a w'
    | (Raise e, w') => (Raise e, w')
    | (Undefined, w') => (Undefined, w')
    end.

Definition raise {A} (e : exn) : M A := fun w => (Raise e, w).
Definition undefined {A} : M A := fun w => (Undefined, w).
Definition get_world : M World := fun w => (Ok w, w).

Declare Scope py_scope.
Delimit Scope py_scope with py.
Notation "x <- c ;; k" := (bind c (fun x => k))
  (at level 100, c at next level, right associativity) : py_scope.
Notation "c ;; k" := (bind c (fun _ => k))
  (at level 100, right associativity) : py_scope.
#[local] Open Scope py_scope.

(** [try: c except XadException/TypeError as e: ...]: the exception becomes a
    value, the state is the one the raise left. *)
Definition attempt {A} (c : M A) : M (exn + A) :=
  fun w =>
    match c w with
    | (Ok a, w') => (Ok (inr a), w')
    | (Raise e, w') => (Ok (inl e), w')
    | (Undefined, w') => (Undefined, w')
    end.

(** [try: c finally: h] *)
Definition finally {A} (c : M A) (h : M unit) : M A :=
  fun w =>
    match c w with
    | (Ok a, w') => (h ;; ret a) w'
    | (Raise e, w') => (h ;; raise e) w'
    | (Undefined, w') => (Undefined, w')
    end.

(** [for x in xs: body(x)] *)
Fixpoint for_each {A} (body : A -> M unit) (xs : list A) : M unit :=
  match xs with
  | [] => ret tt
  | x :: xs' => body x ;; for_each body xs'
  end.

(** ** The store *)

Definition World_set_areal (l : loc) (x : AReal) (w : World) : World :=
  {| areals := <[l := x]> (areals w); tapes := tapes w;
     active_tape := active_tape w |}.

Definition World_new_areal (x : AReal) (w : World) : World :=
  {| areals := areals w ++ [x]; tapes := tapes w;
     active_tape := active_tape w |}.

Definition World_set_tape (t : tape_id) (tp : Tape) (w : World) : World :=
  {| areals := areals w; tapes := <[t := tp]> (tapes w);
     active_tape := active_tape w |}.

Definition World_new_tape (tp : Tape) (w : World) : World :=
  {| areals := areals w; tapes := tapes w ++ [tp];
     active_tape := active_tape w |}.

Definition World_set_active_tape (a : gmap thread tape_id) (w : World) : World :=
  {| areals := areals w; tapes := tapes w; active_tape := a |}.

Definition get_areal (l : loc) : M AReal :=
  fun w =>
    match areals w !! l with
    | Some x => (Ok x, w)
    | None => (Undefined, w)
    end.

Definition set_areal (l : loc) (x : AReal) : M unit :=
  fun w => (Ok tt, World_set_areal l x w).

Definition new_areal (x : AReal) : M loc :=
  fun w => (Ok (length (areals w)), World_new_areal x w).

Definition get_tape (t : tape_id) : M Tape :=
  fun w =>
    match tapes w !! t with
    | Some tp => (Ok tp, w)
    | None => (Undefined, w)
    end.

Definition set_tape (t : tape_id) (tp : Tape) : M unit :=
  fun w => (Ok tt, World_set_tape t tp w).

Definition new_tape (tp : Tape) : M tape_id :=
  fun w => (Ok (length (tapes w)), World_new_tape tp w).

Definition set_active_tape (a : gmap thread tape_id) : M unit :=
  fun w => (Ok tt, World_set_active_tape a w).

(** ** Tape internals *)

(** Field updates of the tape record. *)

Definition with_entries (es : list entry) (tp : Tape) : Tape :=
  {| entries := es; derivatives := derivatives tp; active := active tp;
     recording_start := recording_start tp; seeded := seeded tp |}.

Definition with_derivatives (ds : list float) (tp : Tape) : Tape :=
  {| entries := entries tp; derivatives := ds; active := active tp;
     recording_start := recording_start tp; seeded := seeded tp |}.

Definition with_active (b : bool) (tp : Tape) : Tape :=
  {| entries := entries tp; derivatives := derivatives tp; active := b;
     recording_start := recording_start tp; seeded := seeded tp |}.

Definition with_recording_start (p : nat) (tp : Tape) : Tape :=
  {| entries := entries tp; derivatives := derivatives tp; active := active tp;
     recording_start := p; seeded := seeded tp |}.

Definition with_seeded (b : bool) (tp : Tape) : Tape :=
  {| entries := entries tp; derivatives := derivatives tp; active := active tp;
     recording_start := recording_start tp; seeded := b |}.

(** Modelled from the spec: slot allocation of the tape (section 4.2, "allocates
    a fresh slot ..., zero-initializes its derivative storage").  The fresh
    slot is the current position; the entry that defines it is appended and
    the derivative array reaches up to it, with a zero in it. *)
Definition push_entry (k : op_kind) (ins : list (slot * float)) (tp : Tape)
  : Tape * slot :=
  let s := length (entries tp) in
  (with_derivatives (resize s float_zero (derivatives tp) ++ [float_zero])
     (with_entries (entries tp ++ [mkEntry k ins s]) tp), s).

(** Modelled from the spec: the accumulation [adjoint[input] += x] of the
    reverse pass (section 4.2); nothing is stored for a slot outside the
    array. *)
Definition accumulate (s : slot) (x : float) (ds : list float) : list float :=
  alter (fun d => (d + x)%float) s ds.

(** Modelled from the spec: what the reverse pass does at one entry
    (section 4.2, "adjoint[input] += localPartial * adjoint[output]"). *)
Definition propagate (e : entry) (ds : list float) : list float :=
  let a := default float_zero (ds !! output e) in
  fold_left (fun acc ip => accumulate (fst ip) (snd ip * a)%float acc)
    (inputs e) ds.

(** Modelled from the spec: the reverse traversal over a stretch of the log,
    last entry first. *)
Definition reverse_sweep (es : list entry) (ds : list float) : list float :=
  fold_right propagate ds es.

(** ** The extension module [_xad_autodiff.adj_1st] *)

(** Modelled from the spec: the constructor [Tape()] of the extension
    module: a fresh tape, inactive and empty. *)
Definition Tape_new : M tape_id := new_tape Tape_empty.

(** Modelled from the spec: the constructor [Real(v)] of the extension
    module (section 4.3): a fresh variable, value only, unregistered. *)
Definition Real_new (v : float) : M loc :=
  new_areal {| adj_value := v; adj_registration := None |}.

(** Modelled from the spec: [Tape.activate] (section 4.2): fails when a tape
    is already the active one of the calling thread, or when this tape is
    already active. *)
Definition activate (th : thread) (t : tape_id) : M unit :=
  w <- get_world ;;
  match active_tape w !! th with
  | Some _ => raise TapeAlreadyActive
  | None =>
      tp <- get_tape t ;;
      if active tp then raise TapeAlreadyActive
      else
        set_tape t (with_active true tp) ;;
        set_active_tape (<[th := t]> (active_tape w))
  end.

(** Modelled from the spec: [Tape.deactivate] (section 4.2): the tape stops
    being the active one of the thread; on a tape that is not, a caller
    error. *)
Definition deactivate (th : thread) (t : tape_id) : M unit :=
  w <- get_world ;;
  tp <- get_tape t ;;
  if decide (active_tape w !! th = Some t) then
    set_tape t (with_active false tp) ;;
    set_active_tape (delete th (active_tape w))
  else undefined.

(** Modelled from the spec: [Tape.isActive] (section 6): the active flag. *)
Definition isActive (t : tape_id) : M bool :=
  tp <- get_tape t ;; ret (active tp).

(** Modelled from the spec: [Tape.getActive] (section 6): the active tape of
    the calling thread, or none. *)
Definition getActive (th : thread) : M (option tape_id) :=
  w <- get_world ;; ret (active_tape w !! th).

(** Modelled from the spec: the scoped acquisition [with tape: body]
    (section 5): activation on entry, deactivation on every exit path. *)
Definition with_tape {A} (th : thread) (t : tape_id) (body : M A) : M A :=
  activate th t ;;
  finally body (deactivate th t).

(** Modelled from the spec: [Tape.registerInput] (section 4.2): on an active
    tape, a fresh zeroed slot, and the variable bound to the tape at it; a
    variable that was registered before gets a new slot all the same. *)
Definition registerInput (t : tape_id) (l : loc) : M unit :=
  tp <- get_tape t ;;
  x <- get_areal l ;;
  if active tp then
    let (tp', s) := push_entry OpInput [] tp in
    set_tape t tp' ;;
    set_areal l {| adj_value := adj_value x; adj_registration := Some (t, s) |}
  else undefined.

(** Modelled from the spec: [Tape.registerOutput] (section 4.2): the
    variable keeps the slot it has and no slot is allocated; the mark is
    read by no other operation, so the tape stores none. *)
Definition registerOutput (t : tape_id) (l : loc) : M unit :=
  tp <- get_tape t ;;
  x <- get_areal l ;;
  match adj_registration x with
  | Some _ => ret tt
  | None => undefined
  end.

(** Modelled from the spec: [Tape.getPosition] (section 4.2): the current
    length of the log. *)
Definition getPosition (t : tape_id) : M nat :=
  tp <- get_tape t ;; ret (length (entries tp)).

(** Modelled from the spec: [Tape.newRecording] (section 4.2): the current
    position becomes the baseline; nothing is appended. *)
Definition newRecording (t : tape_id) : M unit :=
  tp <- get_tape t ;;
  set_tape t (with_recording_start (length (entries tp)) tp).

(** Modelled from the spec: [Tape.setDerivative] on a slot (section 4.2):
    the seed is stored, [OutOfRange] beyond the derivative array. *)
Definition Tape_setDerivative (t : tape_id) (s : slot) (d : float) : M unit :=
  tp <- get_tape t ;;
  match derivatives tp !! s with
  | Some _ =>
      set_tape t (with_seeded true (with_derivatives (<[s := d]> (derivatives tp)) tp))
  | None => raise OutOfRange
  end.

(** Modelled from the spec: [Tape.getDerivative] / [Tape.derivative] on a
    slot (section 4.2): the stored derivative, [OutOfRange] beyond the
    derivative array. *)
Definition Tape_getDerivative (t : tape_id) (s : slot) : M float :=
  tp <- get_tape t ;;
  match derivatives tp !! s with
  | Some d => ret d
  | None => raise OutOfRange
  end.

(** Modelled from the spec: [Tape.computeAdjointsTo] (sections 4.2 and 7):
    the reverse traversal from the end of the log down to the given
    position, [DerivativesNotInitialized] without a seed.  The log itself is
    left as it is (the cursor the design document mentions is read by no
    other operation). *)
Definition computeAdjointsTo (t : tape_id) (pos : nat) : M unit :=
  tp <- get_tape t ;;
  if seeded tp then
    set_tape t
      (with_derivatives (reverse_sweep (drop pos (entries tp)) (derivatives tp)) tp)
  else raise DerivativesNotInitialized.

(** Modelled from the spec: [Tape.computeAdjoints] (section 4.2): the same
    traversal, down to the baseline of the last [newRecording]. *)
Definition computeAdjoints (t : tape_id) : M unit :=
  tp <- get_tape t ;;
  computeAdjointsTo t (recording_start tp).

(** Modelled from the spec: [Tape.resetTo] (section 4.2, and section 9 for a
    position beyond the end): the log and the slot table cut back to the
    position. *)
Definition resetTo (t : tape_id) (pos : nat) : M unit :=
  tp <- get_tape t ;;
  if decide (pos <= length (entries tp))%nat then
    set_tape t
      (with_derivatives (take pos (derivatives tp))
         (with_entries (take pos (entries tp)) tp))
  else raise OutOfRange.

(** Modelled from the spec: [Tape.clearDerivatives] (section 4.2): every
    stored derivative becomes zero. *)
Definition clearDerivatives (t : tape_id) : M unit :=
  tp <- get_tape t ;;
  set_tape t
    (with_derivatives (replicate (length (derivatives tp)) float_zero) tp).

(** Modelled from the spec: [Tape.clearDerivativesAfter] (sections 4.2, 7
    and 8): the derivative storage from the position on is dropped, so that
    those slots are out of range afterwards. *)
Definition clearDerivativesAfter (t : tape_id) (pos : nat) : M unit :=
  tp <- get_tape t ;;
  set_tape t (with_derivatives (take pos (derivatives tp)) tp).

(** Modelled from the spec: [Real.getValue] of the adjoint variable
    (section 4.3): the value it holds. *)
Definition AReal_getValue (l : loc) : M float :=
  x <- get_areal l ;; ret (adj_value x).

(** Modelled from the spec: [Real.getSlot] (section 4.3): the raw slot, if
    the variable has one. *)
Definition AReal_getSlot (l : loc) : M (option slot) :=
  x <- get_areal l ;; ret (snd <$> adj_registration x).

(** Modelled from the spec: [Real.shouldRecord] (section 4.3): whether the
    tape that owns the registration is the active one of the thread. *)
Definition shouldRecord (th : thread) (l : loc) : M bool :=
  w <- get_world ;;
  x <- get_areal l ;;
  match adj_registration x, active_tape w !! th with
  | Some (t, _), Some t' => ret (bool_decide (t = t'))
  | _, _ => ret false
  end.

(** Modelled from the spec: [Real.setDerivative] of the adjoint variable
    (sections 4.3 and 7): it goes through the active tape of the thread,
    [NoTapeException] without one; a variable without a slot has none in
    range. *)
Definition AReal_setDerivative (th : thread) (l : loc) (d : float) : M unit :=
  w <- get_world ;;
  match active_tape w !! th with
  | None => raise NoTapeException
  | Some t =>
      x <- get_areal l ;;
      match adj_registration x with
      | Some (_, s) => Tape_setDerivative t s d
      | None => raise OutOfRange
      end
  end.

(** Modelled from the spec: [Real.getDerivative] of the adjoint variable
    (sections 4.3 and 7), through the active tape of the thread like
    [setDerivative]. *)
Definition AReal_getDerivative (th : thread) (l : loc) : M float :=
  w <- get_world ;;
  match active_tape w !! th with
  | None => raise NoTapeException
  | Some t =>
      x <- get_areal l ;;
      match adj_registration x with
      | Some (_, s) => Tape_getDerivative t s
      | None => raise OutOfRange
      end
  end.

(** Modelled from the spec: an operand of an arithmetic operator on adjoint
    variables (section 4.3): a plain number or an adjoint variable; its value
    and, when it records, its slot. *)
Definition operand (th : thread) (x : pyobj) : M (float * option slot) :=
  match x with
  | PyInt z => ret (float_of_int z, None)
  | PyFloat f => ret (f, None)
  | PyAReal l =>
      a <- get_areal l ;;
      r <- shouldRecord th l ;;
      ret (adj_value a, if r then snd <$> adj_registration a else None)
  | _ => undefined
  end.

(** Modelled from the spec: the operand part of an entry that a recording
    operand contributes: its slot with the local partial derivative. *)
Definition partial (s : option slot) (p : float) : list (slot * float) :=
  match s with
  | Some s => [(s, p)]
  | None => []
  end.

(** Modelled from the spec: a binary operator with an adjoint operand
    (section 4.2): with a recording operand, one entry with the local
    partials at the current values and a result bound to a fresh slot of the
    active tape; otherwise plain arithmetic and a result without a slot. *)
Definition binary_op (th : thread) (k : op_kind)
    (f da db : float -> float -> float) (a b : pyobj) : M loc :=
  oa <- operand th a ;;
  ob <- operand th b ;;
  let va := fst oa in
  let vb := fst ob in
  let ins := partial (snd oa) (da va vb) ++ partial (snd ob) (db va vb) in
  w <- get_world ;;
  match ins, active_tape w !! th with
  | _ :: _, Some t =>
      tp <- get_tape t ;;
      let (tp', s) := push_entry k ins tp in
      set_tape t tp' ;;
      new_areal {| adj_value := f va vb; adj_registration := Some (t, s) |}
  | _, _ => new_areal {| adj_value := f va vb; adj_registration := None |}
  end.

(** Modelled from the spec: [a * b] with an [adj_1st.Real] operand; the
    partial derivatives are the other operand's value (section 4.1). *)
Definition AReal_mul (th : thread) : pyobj -> pyobj -> M loc :=
  binary_op th OpMul PrimFloat.mul (fun _ vb => vb) (fun va _ => va).

(** Modelled from the spec: [a + b] with an [adj_1st.Real] operand; both
    partial derivatives are one. *)
Definition AReal_add (th : thread) : pyobj -> pyobj -> M loc :=
  binary_op th OpAdd PrimFloat.add (fun _ _ => float_one) (fun _ _ => float_one).

(** ** The extension module [_xad_autodiff.fwd_1st] *)

(** Modelled from the spec: [Real.getValue] of the forward variable
    (section 4.1). *)
Definition FReal_getValue (r : FReal) : M float := ret (fwd_value r).

(** Modelled from the spec: [Real.getDerivative] of the forward variable
    (section 4.1): the derivative it carries. *)
Definition FReal_getDerivative (r : FReal) : M float := ret (fwd_derivative r).

(** ** The Python layer *)

(** [isinstance(x, adj_1st.Real)] and [isinstance(x, fwd_1st.Real)] *)
Definition isinstance_adj_Real (x : pyobj) : bool :=
  match x with
  | PyAReal _ => true
  | _ => false
  end.

Definition isinstance_fwd_Real (x : pyobj) : bool :=
  match x with
  | PyFReal _ => true
  | _ => false
  end.

(** The method call [x.getValue()], dispatched on the class of [x]; the
    builtin types have no such method. *)
Definition getValue (x : pyobj) : M pyobj :=
  match x with
  | PyAReal l => v <- AReal_getValue l ;; ret (PyFloat v)
  | PyFReal r => v <- FReal_getValue r ;; ret (PyFloat v)
  | _ => undefined
  end.

(** The method call [x.getDerivative()], dispatched on the class of [x]. *)
Definition getDerivative (th : thread) (x : pyobj) : M pyobj :=
  match x with
  | PyAReal l => d <- AReal_getDerivative th l ;; ret (PyFloat d)
  | PyFReal r => d <- FReal_getDerivative r ;; ret (PyFloat d)
  | _ => undefined
  end.

(** [xad_autodiff/__init__.py] *)
Module xad_autodiff.

Definition value (x : pyobj) : M pyobj :=
  if isinstance_adj_Real x || isinstance_fwd_Real x then getValue x
  else ret x.

Definition derivative (th : thread) (x : pyobj) : M pyobj :=
  if isinstance_adj_Real x || isinstance_fwd_Real x then getDerivative th x
  else raise (TypeError ("type " ++ type_name x ++ " is not an XAD active type")).

End xad_autodiff.

(** ** The builtin [hash] *)

(** The hash of numbers in CPython 3.10 and later on a 64-bit build, as the
    language reference gives it ("Hashing of numeric types") with the
    constants of [sys.hash_info]: the modulus [2^61 - 1] and the hash 314159
    of infinity. *)
Definition _PyHASH_BITS : Z := 61.
Definition _PyHASH_MODULUS : Z := 2 ^ _PyHASH_BITS - 1.
Definition _PyHASH_INF : Z := 314159.

(** [object.__hash__] of the object at address [p], which is its [id]: the
    address rotated right by four bits, read as a signed 64-bit number, and
    never -1. *)
Definition _Py_HashPointer (p : Z) : Z :=
  let y := Z.lor (Z.shiftr p 4) (Z.land (Z.shiftl p 60) (Z.ones 64)) in
  let x := if y <? 2 ^ 63 then y else y - 2 ^ 64 in
  if x =? -1 then -2 else x.

(** [float.__hash__] of the float object at address [inst] that holds [v]:
    a NaN hashes by the identity of the object, an infinity to plus or minus
    [_PyHASH_INF], a zero to 0, and a finite [m * 2^e] to its residue modulo
    [2^61 - 1], where [2^61] is 1, with the sign of [v], and never to -1. *)
Definition _Py_HashDouble (inst : Z) (v : float) : Z :=
  match Prim2SF v with
  | S754_nan => _Py_HashPointer inst
  | S754_infinity s => if s then - _PyHASH_INF else _PyHASH_INF
  | S754_zero _ => 0
  | S754_finite s m e =>
      let x := (Z.pos m * 2 ^ (e mod _PyHASH_BITS)) mod _PyHASH_MODULUS in
      let x := if s then - x else x in
      if x =? -1 then -2 else x
  end.

(** [int.__hash__] *)
Definition long_hash (z : Z) : Z :=
  let x := Z.abs z mod _PyHASH_MODULUS in
  let x := if z <? 0 then - x else x in
  if x =? -1 then -2 else x.

(** The builtin [hash] on an object of a builtin type that is at address
    [p]; a bool hashes as the int it is; the hash of [None] and of a [str]
    is not modelled. *)
Definition builtin_hash (p : Z) (x : pyobj) : M Z :=
  match x with
  | PyFloat f => ret (_Py_HashDouble p f)
  | PyInt z => ret (long_hash z)
  | PyBool b => ret (long_hash (Z.b2z b))
  | _ => undefined
  end.

(** [xad_autodiff/adj_1st/__init__.py] *)
Module adj_1st.

(** [Tape.registerInputs = _register_inputs] *)
Definition _register_inputs (self : tape_id) (inputs : list loc) : M unit :=
  for_each (fun input => registerInput self input) inputs.

(** [Tape.registerOutputs = _register_outputs] *)
Definition _register_outputs (self : tape_id) (outputs : list loc) : M unit :=
  for_each (fun output => registerOutput self output) outputs.

(** The property [Real.value] of the extension module reads the value. *)
Definition value (x : loc) : M pyobj :=
  v <- AReal_getValue x ;; ret (PyFloat v).

(** [Real.__getnewargs__ = _getnewargs] *)
Definition _getnewargs (x : loc) : M (list pyobj) :=
  v <- value x ;; ret [v].

(** [Real.__hash__ = _hash]; [p] is the address of the float object that
    [x.value] creates, which the interpreter chooses. *)
Definition _hash (p : Z) (x : loc) : M Z :=
  v <- value x ;; builtin_hash p v.

End adj_1st.

(** [xad_autodiff/fwd_1st/__init__.py] *)
Module fwd_1st.

(** [setattr(Real, "value", property(Real.getValue))] *)
Definition value (x : FReal) : M pyobj :=
  v <- FReal_getValue x ;; ret (PyFloat v).

(** The getter of [setattr(Real, "derivative", property(Real.getDerivative,
    Real.setDerivative))]. *)
Definition derivative (x : FReal) : M pyobj :=
  d <- FReal_getDerivative x ;; ret (PyFloat d).

(** [Real.__getnewargs__ = _getnewargs] *)
Definition _getnewargs (x : FReal) : M (list pyobj) :=
  v <- value x ;; ret [v].

(** [Real.__hash__ = _hash]; [p] is the address of the float object that
    [x.value] creates, which the interpreter chooses. *)
Definition _hash (p : Z) (x : FReal) : M Z :=
  v <- value x ;; builtin_hash p v.

End fwd_1st.

(** The builtin [hash(x)]: [type(x).__hash__(x)].  For an object of a
    builtin type [p] is its address; the hash of a [Real] does not look at
    the address of the [Real], and there [p] is the address of the float
    object that its [__hash__] creates. *)
Definition hash (p : Z) (x : pyobj) : M Z :=
  match x with
  | PyAReal l => adj_1st._hash p l
  | PyFReal r => fwd_1st._hash p r
  | _ => builtin_hash p x
  end.

(** The double that [x] stands for: the one a float is, or the one an
    adjoint or a forward variable holds. *)
Definition holds (w : World) (x : pyobj) (v : float) : Prop :=
  match x with
  | PyFloat f => f = v
  | PyAReal l => exists a, areals w !! l = Some a /\ adj_value a = v
  | PyFReal r => fwd_value r = v
  | _ => False
  end.

(** A fresh interpreter after [Real(float("nan"))]: one adjoint variable,
    unregistered, holding a NaN. *)
Definition World_nan : World := snd (Real_new nan World_init).

(** ** What the specification says of [registerInputs] and [registerOutputs] *)

(** The specification's wording, "calling [call v] for each [v] in sequence
    order": the calls are chained one after the other, from the first
    element on. *)
Definition calls_in_order {A} (call : A -> M unit) (vs : list A) : M unit :=
  fold_left (fun done v => done ;; call v) vs (ret tt).

(** ** The scenarios of [tests/test_tape.py] *)

(** [with Tape() as tape: body(tape)] *)
Definition with_new_tape {A} (th : thread) (body : tape_id -> M A) : M A :=
  tape <- Tape_new ;;
  with_tape th tape (body tape).

(** The body of the loop of [test_reset_to_and_compute_adjoints_to_usage],
    with the two lists it appends to. *)
Definition replay_step (th : thread) (tape : tape_id) (i : loc) (pos : nat)
    (acc : list pyobj * list pyobj) (p : Z) : M (list pyobj * list pyobj) :=
  v <- AReal_mul th (PyInt p) (PyAReal i) ;;
  registerOutput tape v ;;
  AReal_setDerivative th v 1%float ;;
  computeAdjointsTo tape pos ;;
  val <- xad_autodiff.value (PyAReal v) ;;
  der <- xad_autodiff.derivative th (PyAReal i) ;;
  resetTo tape pos ;;
  clearDerivatives tape ;;
  ret (fst acc ++ [val], snd acc ++ [der]).

(** [for p in ps: acc = step(acc, p)] *)
Fixpoint for_fold {A B} (step : B -> A -> M B) (xs : list A) (acc : B) : M B :=
  match xs with
  | [] => ret acc
  | x :: xs' => acc' <- step acc x ;; for_fold step xs' acc'
  end.

(** [test_reset_to_and_compute_adjoints_to_usage] up to its assertions: the
    lists [values] and [deriv]. *)
Definition test_reset_to_and_compute_adjoints_to_usage (th : thread)
  : M (list pyobj * list pyobj) :=
  i <- Real_new 2%float ;;
  with_new_tape th (fun tape =>
    registerInput tape i ;;
    newRecording tape ;;
    pos <- getPosition tape ;;
    for_fold (replay_step th tape i pos) (seqZ 1 9) ([], [])).

(** [test_clear_derivative_after] up to its assertions: what the four
    queries give, in the order [x1], [x2], [x3], [x4]. *)
Definition test_clear_derivative_after (th : thread)
  : M (list (exn + pyobj)) :=
  with_new_tape th (fun tape =>
    x1 <- Real_new 1%float ;;
    registerInput tape x1 ;;
    x2 <- AReal_mul th (PyFloat 1.2%float) (PyAReal x1) ;;
    pos <- getPosition tape ;;
    x2' <- AReal_mul th (PyFloat 1.4%float) (PyAReal x2) ;;
    x3 <- AReal_mul th (PyAReal x2') (PyAReal x1) ;;
    x4 <- AReal_add th (PyAReal x2) (PyAReal x3) ;;
    registerOutput tape x4 ;;
    AReal_setDerivative th x4 1%float ;;
    AReal_setDerivative th x3 1%float ;;
    AReal_setDerivative th x2 1%float ;;
    AReal_setDerivative th x1 1%float ;;
    clearDerivativesAfter tape pos ;;
    d1 <- attempt (xad_autodiff.derivative th (PyAReal x1)) ;;
    d2 <- attempt (xad_autodiff.derivative th (PyAReal x2)) ;;
    d3 <- attempt (xad_autodiff.derivative th (PyAReal x3)) ;;
    d4 <- attempt (xad_autodiff.derivative th (PyAReal x4)) ;;
    ret [d1; d2; d3; d4]).

(** A state with two tapes, the first one active on thread 0, and one
    unregistered adjoint variable. *)
Definition World_sample : World :=
  snd ((t0 <- Tape_new ;; _ <- Tape_new ;; _ <- Real_new 1%float ;;
        activate 0%nat t0) World_init).

(** ** The state the replay loop runs in *)

(** What holds before and after every round of the loop of
    [test_reset_to_and_compute_adjoints_to_usage]: tape [t] is the active one
    of the thread, [i] holds 2.0 and is registered on it at slot [s], the
    log is [es] (so the position is its length), and the derivative stored
    at [s] is zero. *)
Definition replay_inv (th : thread) (t : tape_id) (i : loc) (s : slot)
    (es : list entry) (w : World) : Prop :=
  active_tape w !! th = Some t
  /\ areals w !! i = Some {| adj_value := 2%float; adj_registration := Some (t, s) |}
  /\ exists tp, tapes w !! t = Some tp /\ entries tp = es
       /\ derivatives tp !! s = Some float_zero /\ (s < length es)%nat.

(** ** States for the examples *)

(** A fresh interpreter after [Tape()]: one tape, not active. *)
Definition World_one_tape : World := snd (Tape_new World_init).

(** A fresh interpreter after [x = Real(1.0)] and [with Tape() as tape:]
    has been entered on thread 0. *)
Definition World_in_tape : World :=
  snd ((_ <- Real_new 1%float ;; t <- Tape_new ;; activate 0%nat t) World_init).

(** A fresh interpreter after [a = Real(1.0)], [b = Real(2.0)] and
    [with Tape() as tape:] has been entered on thread 0. *)
Definition World_two_variables : World :=
  snd ((_ <- Real_new 1%float ;; _ <- Real_new 2%float ;;
        t <- Tape_new ;; activate 0%nat t) World_init).

(** ** Calls that may raise any exception *)

(** A call returns, raises an exception of the type [E], or is outside what
    is modelled; it runs in a state of the type [S] and leaves one. *)
Inductive result (E A : Type) :=
| Returned (a : A)
| Raised (e : E)
| Unspecified.
Arguments Returned {E A} a.
Arguments Raised {E A} e.
Arguments Unspecified {E A}.

Definition Run (S E A : Type) : Type := S -> result E A * S.

Definition run_ret {S E A} (a : A) : Run S E A := fun s => (Returned a, s).

Definition run_then {S E A B} (c : Run S E A) (k : A -> Run S E B) : Run S E B :=
  fun s =>
    match c s with
    | (Returned a, s') => k a s'
    | (Raised e, s') => (Raised e, s')
    | (Unspecified, s') => (Unspecified, s')
    end.

Definition run_raise {S E A} (e : E) : Run S E A := fun s => (Raised e, s).

(** A result that does not depend on the state. *)
Definition run_pure {S E A} (r : result E A) : Run S E A := fun s => (r, s).

Declare Scope run_scope.
Delimit Scope run_scope with run.
Notation "x <- c ;; k" := (run_then c (fun x => k))
  (at level 100, c at next level, right associativity) : run_scope.

(** [for x in xs: acc = step(acc, x)] *)
Fixpoint run_fold {S E A B} (step : B -> A -> Run S E B) (xs : list A) (acc : B)
  : Run S E B :=
  match xs with
  | [] => run_ret acc
  | x :: xs' => run_then (step acc x) (fun acc' => run_fold step xs' acc')
  end.

(** [for x in xs: body(x)] *)
Fixpoint run_each {S E A} (body : A -> Run S E unit) (xs : list A) : Run S E unit :=
  match xs with
  | [] => run_ret tt
  | x :: xs' => run_then (body x) (fun _ => run_each body xs')
  end.

(** What the Python layer can raise beyond the package: an exception of the
    package (or the [TypeError] that comes with it), or a builtin
    [OverflowError] or [ValueError]. *)
Inductive raised :=
| Exn (e : exn)
| OverflowError (msg : string)
| ValueError (msg : string).

(** A call of the package, run where builtin exceptions can be raised too. *)
Definition lift {A} (c : M A) : Run World raised A :=
  fun w =>
    match c w with
    | (Ok a, w') => (Returned a, w')
    | (Raise e, w') => (Raised (Exn e), w')
    | (Undefined, w') => (Unspecified, w')
    end.

(** ** The builtin [math] module *)

(** How a function of the builtin [math] module takes its argument as a
    double: a float as it is, an int by conversion ([OverflowError] beyond the
    doubles), anything else without a conversion to float is a [TypeError].
    The conversion method of the extension classes is not modelled. *)
Definition math_double (v : pyobj) : result raised float :=
  match v with
  | PyFloat f => Returned f
  | PyBool b => Returned (if b then 1%float else 0%float)
  | PyInt z =>
      if PrimFloat.is_infinity (float_of_int z)
      then Raised (OverflowError "int too large to convert to float")
      else Returned (float_of_int z)
  | PyNone | PyStr _ =>
      Raised (Exn (TypeError ("must be real number, not " ++ type_name v)))
  | PyAReal _ | PyFReal _ => Unspecified
  end.

(** A predicate of the builtin [math] module. *)
Definition math_predicate (p : float -> bool) (v : pyobj) : result raised pyobj :=
  match math_double v with
  | Returned f => Returned (PyBool (p f))
  | Raised e => Raised e
  | Unspecified => Unspecified
  end.

(** [math.isfinite], [math.isinf] and [math.isnan] *)
Definition _math_isfinite : pyobj -> result raised pyobj :=
  math_predicate PrimFloat.is_finite.
Definition _math_isinf : pyobj -> result raised pyobj :=
  math_predicate PrimFloat.is_infinity.
Definition _math_isnan : pyobj -> result raised pyobj :=
  math_predicate PrimFloat.is_nan.

(** [xad_autodiff/math/__init__.py] *)
Module math.

(** [def isfinite(x): return _math.isfinite(xad.value(x))] *)
Definition isfinite (x : pyobj) : Run World raised pyobj :=
  run_then (lift (xad_autodiff.value x)) (fun v => run_pure (_math_isfinite v)).

(** [def isinf(x): return _math.isinf(xad.value(x))] *)
Definition isinf (x : pyobj) : Run World raised pyobj :=
  run_then (lift (xad_autodiff.value x)) (fun v => run_pure (_math_isinf v)).

(** [def isnan(x): return _math.isnan(xad.value(x))] *)
Definition isnan (x : pyobj) : Run World raised pyobj :=
  run_then (lift (xad_autodiff.value x)) (fun v => run_pure (_math_isnan v)).

Section Extension.

(** The state the calls run in and what they can raise. *)
Context {S E : Type}.

(** [sqrt] and [pow] of the extension module, and the operators [+] and [-],
    on any mixture of active and plain operands. *)
Variable sqrt : pyobj -> Run S E pyobj.
Variable pow : pyobj -> pyobj -> Run S E pyobj.
Variable add : pyobj -> pyobj -> Run S E pyobj.
Variable sub : pyobj -> pyobj -> Run S E pyobj.

(** The builtin [sum] over a generator: from the int 0 on, every item is
    computed and then added to what has been summed. *)
Definition sum {A} (item : A -> Run S E pyobj) (xs : list A) : Run S E pyobj :=
  run_fold (fun acc x => run_then (item x) (fun y => add acc y)) xs (PyInt 0).

(** [hypot], whose arguments are the [inputs]:
    [return sqrt(sum(pow(x, 2) for x in inputs))] *)
Definition hypot (inputs : list pyobj) : Run S E pyobj :=
  run_then (sum (fun x => pow x (PyInt 2)) inputs) sqrt.

(** [def dist(p, q): return sqrt(sum(pow(px - qx, 2) for px, qx in zip(p, q)))] *)
Definition dist (p q : list pyobj) : Run S E pyobj :=
  run_then
    (sum (fun pq => run_then (sub (fst pq) (snd pq)) (fun d => pow d (PyInt 2)))
       (zip p q))
    sqrt.

End Extension.

End math.

(** [build.py] *)
Module build.

#[local] Open Scope string_scope.

(** What the build script raises itself, a [ValueError], and what comes from
    the calls it makes into the operating system, [distutils] and
    [setuptools]. *)
Inductive build_error (X : Type) :=
| ValueError (msg : string)
| External (e : X).
Arguments ValueError {X} msg.
Arguments External {X} e.

(** [class XadExtension(_Extension)]: the attributes [name] and [sources] of
    the base class, and [input_file]. *)
Record XadExtension := mkXadExtension {
  name : string;
  sources : list string;
  input_file : string;
}.

(** An element of [self.extensions]: an [XadExtension], or an extension of
    another class. *)
Inductive extension (Other : Type) :=
| Prebuilt (ext : XadExtension)
| Foreign (ext : Other).
Arguments Prebuilt {Other} ext.
Arguments Foreign {Other} ext.

(** The attributes of the [build_ext] command that [run] reads. *)
Record build_ext (Other : Type) := mkBuildExt {
  extensions : list (extension Other);
  build_lib : string;
  inplace : bool;
  verbose : bool;
  dry_run : bool;
}.
Arguments extensions {Other} _.
Arguments build_lib {Other} _.
Arguments inplace {Other} _.
Arguments verbose {Other} _.
Arguments dry_run {Other} _.

(** The classes a [cmdclass] dictionary holds. *)
Inductive command_class := Class_build_ext.

(** A value of the dictionary [setup_kwargs]: what [build] stores, or
    anything else a caller has put there. *)
Inductive kwvalue (V : Type) :=
| ExtModules (exts : list XadExtension)
| Cmdclass (classes : gmap string command_class)
| Bool (b : bool)
| Other (v : V).
Arguments ExtModules {V} exts.
Arguments Cmdclass {V} classes.
Arguments Bool {V} b.
Arguments Other {V} v.

Section FileSystem.

Context {X : Type}.

(** [Path(p).exists()]: whether the path exists, or the [OSError] of the
    operating system that [exists] lets through (a directory on the way that
    may not be searched, a name that is too long). *)
Variable path_exists : string -> X + bool.

(** [XadExtension.__init__] *)
Definition XadExtension_init (ext_name : string) (file : string)
  : result (build_error X) XadExtension :=
  match path_exists file with
  | inl e => Raised (External e)
  | inr true =>
      Returned {| name := "xad_autodiff." ++ ext_name;
                  sources := ["dont-need-this-source-file.c"];
                  input_file := file |}
  | inr false => Raised (ValueError ("extension file " ++ file ++ " does not exist"))
  end.

Context {V : Type}.

(** [open(p, "rt").read()]: the text, or the exception of the operating
    system. *)
Variable read_text : string -> X + string.

(** [str.strip] *)
Variable strip : string -> string.

(** The path [Path(__file__).parent / "prebuilt_file.txt"] *)
Variable prebuilt_file : string.

(** [def build(setup_kwargs)], on the dictionary it is given. *)
Definition build : Run (gmap string (kwvalue V)) (build_error X) unit :=
  fun setup_kwargs =>
    match read_text prebuilt_file with
    | inl e => (Raised (External e), setup_kwargs)
    | inr text =>
        let filename := strip text in
        match XadExtension_init "_xad_autodiff" filename with
        | Returned ext =>
            let ext_modules := [ext] in
            (Returned tt,
             <["zip_safe" := Bool false]>
               (<["cmdclass" := Cmdclass {["build_ext" := Class_build_ext]}]>
                  (<["ext_modules" := ExtModules ext_modules]> setup_kwargs)))
        | Raised e => (Raised e, setup_kwargs)
        | Unspecified => (Unspecified, setup_kwargs)
        end
    end.

End FileSystem.

Section Command.

Context {S X Other : Type}.

(** The methods [get_ext_fullname] and [get_ext_filename] of the command,
    from [setuptools]. *)
Variable get_ext_fullname : build_ext Other -> string -> string.
Variable get_ext_filename : build_ext Other -> string -> string.

(** [Path(a) / b] and [os.path.basename] *)
Variable joinpath : string -> string -> string.
Variable basename : string -> string.

(** [Path(p).mkdir(parents=True, exist_ok=True)] *)
Variable mkdir : string -> Run S (build_error X) unit.

(** [copy_file(src, dst, verbose=..., dry_run=...)] of [distutils] *)
Variable copy_file : string -> string -> bool -> bool -> Run S (build_error X) unit.

(** The method [copy_extensions_to_source] of the command, from
    [setuptools]. *)
Variable copy_extensions_to_source : build_ext Other -> Run S (build_error X) unit.

(** The body of the loop of [build_ext.run]. *)
Definition run_extension (self : build_ext Other) (ext : extension Other)
  : Run S (build_error X) unit :=
  match ext with
  | Foreign _ => run_raise (ValueError "Only pre-built extensions supported")
  | Prebuilt ext =>
      let fullname := get_ext_fullname self (name ext) in
      let filename := get_ext_filename self fullname in
      let dest_path := joinpath (build_lib self) "xad_autodiff" in
      run_then (mkdir dest_path) (fun _ =>
      let dest_filename := joinpath dest_path (basename filename) in
      copy_file (input_file ext) dest_filename (verbose self) (dry_run self))
  end.

(** [build_ext.run] *)
Definition run (self : build_ext Other) : Run S (build_error X) unit :=
  run_then (run_each (run_extension self) (extensions self)) (fun _ =>
  if inplace self then copy_extensions_to_source self
  else run_ret tt).

End Command.

End build.

(** ** A file system for the examples *)

(** One file exists, ["lib/_xad_autodiff.so"]. *)
Definition sample_path_exists (p : string) : unit + bool :=
  inr (String.eqb p "lib/_xad_autodiff.so").

(** [prebuilt_file.txt] holds the name of that file and a newline; nothing
    else can be read. *)
Definition sample_read_text (p : string) : unit + string :=
  if String.eqb p "prebuilt_file.txt"
  then inr ("lib/_xad_autodiff.so" ++ String (Ascii.ascii_of_nat 10) EmptyString)%string
  else inl tt.

(** Stripping a text of its last character, which is all [str.strip] does
    to the text above. *)
Definition sample_strip (s : string) : string :=
  String.substring 0 (String.length s - 1) s.

(** A dictionary of setup arguments with a key of its own and a key that
    [build] sets. *)
Definition sample_kwargs : gmap string (build.kwvalue nat) :=
  <["zip_safe"%string := build.Bool true]>
    (<["name"%string := build.Other 0%nat]> ∅).

(** ** A build command for the examples *)

(** The state is the list of the copies made, newest first; directories
    need no bookkeeping. *)
Definition sample_mkdir (p : string) : Run (list (string * string)) (build.build_error unit) unit :=
  run_ret tt.

Definition sample_copy_file (src dst : string) (verbose dry_run : bool)
  : Run (list (string * string)) (build.build_error unit) unit :=
  fun copies => (Returned tt, if dry_run then copies else (src, dst) :: copies).

(** One pre-built extension, then an extension of another class, then a
    pre-built one again. *)
Definition sample_command : build.build_ext unit :=
  {| build.extensions :=
       [ build.Prebuilt {| build.name := "xad_autodiff._xad_autodiff";
                           build.sources := ["dont-need-this-source-file.c"%string];
                           build.input_file := "lib/_xad_autodiff.so" |};
         build.Foreign tt;
         build.Prebuilt {| build.name := "xad_autodiff.other";
                           build.sources := ["dont-need-this-source-file.c"%string];
                           build.input_file := "lib/other.so" |} ];
     build.build_lib := "build";
     build.inplace := true;
     build.verbose := false;
     build.dry_run := false |}.

(** ** A scenario of [tests/test_real_operations.py] *)

(** [test_binary_with_2_active_operands_adj] up to its assertions, for the
    operator [func] and the values [x1] and [x2]: the value of [y_ad] and the
    derivatives of [x1_ad] and [x2_ad]. *)
Definition test_binary_with_2_active_operands_adj (th : thread)
    (func : pyobj -> pyobj -> M loc) (x1 x2 : float) : M (float * float * float) :=
  x1_ad <- Real_new x1 ;;
  x2_ad <- Real_new x2 ;;
  with_new_tape th (fun tape =>
    registerInput tape x1_ad ;;
    registerInput tape x2_ad ;;
    newRecording tape ;;
    y_ad <- func (PyAReal x1_ad) (PyAReal x2_ad) ;;
    registerOutput tape y_ad ;;
    AReal_setDerivative th y_ad 1%float ;;
    computeAdjoints tape ;;
    y <- AReal_getValue y_ad ;;
    xd1 <- AReal_getDerivative th x1_ad ;;
    xd2 <- AReal_getDerivative th x2_ad ;;
    ret (y, xd1, xd2)).

(** ** Constructors on Python objects *)

(** Modelled from the spec: the constructor call [Real(v)] of the adjoint
    class on a plain number (section 4.3): a float as it is, an int as the
    double it converts to; other arguments are not modelled. *)
Definition Real_of (v : pyobj) : M loc :=
  match v with
  | PyFloat f => Real_new f
  | PyInt z =>
      if PrimFloat.is_infinity (float_of_int z) then undefined
      else Real_new (float_of_int z)
  | _ => undefined
  end.

(** The call [Real(args[0], ..., args[n-1])] with the arguments in a tuple;
    the constructor takes one. *)
Definition Real_call (args : list pyobj) : M loc :=
  match args with
  | [v] => Real_of v
  | _ => undefined
  end.

(** Modelled from the spec: the constructor [Real(v)] of the forward class
    (sections 4.1 and 6): the value, and a derivative of zero until one is
    set. *)
Definition FReal_new (v : float) : FReal :=
  {| fwd_value := v; fwd_derivative := 0%float |}.

(** [xad_autodiff/adj_1st/__init__.py] and [xad_autodiff/fwd_1st/__init__.py]:
    the methods that go through [float.hex] and [float.fromhex]. *)
Module hex_methods.

Section Builtins.

(** [float.hex], and [float.fromhex] with what it raises on a string it does
    not accept. *)
Variable float_hex : float -> string.
Variable float_fromhex : string -> result raised float.

(** [adj_1st]: [Real.hex = _hex], [return x.value.hex()] *)
Definition adj_hex (x : loc) : Run World raised string :=
  run_then (lift (AReal_getValue x)) (fun v => run_ret (float_hex v)).

(** [adj_1st]: [Real.fromhex = classmethod(_fromhex)],
    [return cls(float.fromhex(hexstr))] *)
Definition adj_fromhex (hexstr : string) : Run World raised loc :=
  run_then (run_pure (float_fromhex hexstr)) (fun v => lift (Real_new v)).

(** [fwd_1st]: [Real.hex = _hex] *)
Definition fwd_hex (x : FReal) : Run World raised string :=
  run_then (lift (FReal_getValue x)) (fun v => run_ret (float_hex v)).

(** [fwd_1st]: [Real.fromhex = classmethod(_fromhex)] *)
Definition fwd_fromhex (hexstr : string) : Run World raised FReal :=
  run_then (run_pure (float_fromhex hexstr)) (fun v => run_ret (FReal_new v)).

End Builtins.

End hex_methods.

(** [float.hex] and [float.fromhex] on the two strings the examples need. *)
Definition sample_float_hex (v : float) : string := "0x1.0000000000000p+0".

Definition sample_float_fromhex (s : string) : result raised float :=
  if String.eqb s "0x1.0000000000000p+0" then Returned 1%float
  else Raised (ValueError "invalid hexadecimal floating-point string").

(** ** A scenario of [tests/test_exceptions.py] *)

(** [test_exceptions_adjoints_not_initialized] up to its assertion, for the
    value [v] of [x]: what the block under [pytest.raises] does. *)
Definition test_exceptions_adjoints_not_initialized (th : thread) (v : float)
  : M (exn + unit) :=
  with_new_tape th (fun t =>
    attempt (
      x <- Real_new v ;;
      registerInput t x ;;
      newRecording t ;;
      y <- AReal_mul th (PyAReal x) (PyAReal x) ;;
      registerOutput t y ;;
      computeAdjoints t)).


(** ** The scenario of [test_sum_adj] *)

(** [[f(x) for x in xs]] *)
Fixpoint for_map {A B} (f : A -> M B) (xs : list A) : M (list B) :=
  match xs with
  | [] => ret []
  | x :: xs' => y <- f x ;; ys <- for_map f xs' ;; ret (y :: ys)
  end.

(** The builtin [sum(items)] on a list of adjoint variables: it starts from
    the int 0 and adds the items from the left with [+], which is the
    addition of the adjoint class from the first item on. *)
Definition sum_adj (th : thread) (items : list pyobj) : M pyobj :=
  for_fold (fun acc item => y <- AReal_add th acc item ;; ret (PyAReal y))
    items (PyInt 0).

(** [test_sum_adj] up to its assertions, for the list of values the
    variables hold: the value of [y_ad] and the derivatives of the inputs.
    With no variable the sum is the int 0, which [registerOutput] does not
    take. *)
Definition test_sum_adj (th : thread) (xs : list float) : M (float * list float) :=
  with_new_tape th (fun tape =>
    x_ads <- for_map Real_new xs ;;
    for_each (registerInput tape) x_ads ;;
    newRecording tape ;;
    y_ad <- sum_adj th (PyAReal <$> x_ads) ;;
    match y_ad with
    | PyAReal y_ad =>
        registerOutput tape y_ad ;;
        AReal_setDerivative th y_ad 1%float ;;
        computeAdjoints tape ;;
        y <- AReal_getValue y_ad ;;
        ds <- for_map (AReal_getDerivative th) x_ads ;;
        ret (y, ds)
    | _ => undefined
    end).

(** What the sum of the values is in doubles: the additions from the left,
    from the double of the int 0 on. *)
Definition sum_floats (xs : list float) : float :=
  fold_left PrimFloat.add xs (float_of_int 0).

(** The entry the [j]-th addition of [sum] appends, with [n] registered
    inputs before it: the first one has the int 0 on its left, which does
    not record; the later ones have the running sum there. *)
Definition sum_entry (n j : nat) : entry :=
  mkEntry OpAdd
    match j with
    | O => [(0%nat, float_one)]
    | S j' => [((n + j')%nat, float_one); (j, float_one)]
    end
    (n + j)%nat.

Definition sum_entries (n k : nat) : list entry := sum_entry n <$> seq 0 k.

(** The derivative array during the reverse pass over the additions of
    [sum], when the entries from the [m]-th on have been visited: one at the
    inputs from [m] on and at the running sums from the one before the
    [m]-th addition on, zero elsewhere. *)
Definition sweep_state (n m : nat) : list float :=
  (fun i => if decide ((m <= i < n) \/ (n + m <= i + 1))%nat
            then float_one else float_zero) <$> seq 0 (2 * n).

(** What holds while the inputs of [test_sum_adj] are registered, after [r]
    of them. *)
Definition reg_state (th : thread) (t : tape_id) (base : nat) (xs : list float)
    (r : nat) (w : World) : Prop :=
  active_tape w !! th = Some t
  /\ length (areals w) = (base + length xs)%nat
  /\ (forall j v, xs !! j = Some v ->
        areals w !! (base + j)%nat
        = Some {| adj_value := v;
                  adj_registration := if decide (j < r)%nat then Some (t, j) else None |})
  /\ exists tp, tapes w !! t = Some tp /\ active tp = true
       /\ length (entries tp) = r /\ derivatives tp = replicate r float_zero.

(** What holds during the additions of [sum] in [test_sum_adj], after [k]
    of them: [acc] is the running sum. *)
Definition sum_state (th : thread) (t : tape_id) (base : nat) (xs : list float)
    (k : nat) (acc : pyobj) (w : World) : Prop :=
  let n := length xs in
  active_tape w !! th = Some t
  /\ length (areals w) = (base + n + k)%nat
  /\ (forall j v, xs !! j = Some v ->
        areals w !! (base + j)%nat
        = Some {| adj_value := v; adj_registration := Some (t, j) |})
  /\ match k with
     | O => acc = PyInt 0
     | S k' =>
         acc = PyAReal (base + n + k')%nat
         /\ areals w !! (base + n + k')%nat
            = Some {| adj_value := sum_floats (take k xs);
                      adj_registration := Some (t, (n + k')%nat) |}
     end
  /\ exists tp, tapes w !! t = Some tp /\ recording_start tp = n
       /\ length (entries tp) = (n + k)%nat
       /\ drop n (entries tp) = sum_entries n k
       /\ derivatives tp = replicate (n + k) float_zero.

(** * Properties *)

(** ** The monad *)

Lemma bind_ret_l {A B} (a : A) (k : A -> M B) w : bind (ret a) k w = k a w.
Proof. reflexivity. Qed.

Lemma bind_assoc {A B C} (c : M A) (k : A -> M B) (h : B -> M C) w :
  bind (bind c k) h w = bind c (fun a => bind (k a) h) w.
Proof. unfold bind. destruct (c w) as [[a | e |] w']; reflexivity. Qed.

(** ** Running the calls of the extension module *)

Lemma run_bind {A B} (c : M A) (k : A -> M B) w a w' :
  c w = (Ok a, w') -> bind c k w = k a w'.
Proof. intros H. unfold bind. rewrite H. reflexivity. Qed.

Lemma run_finally {A} (c : M A) (h : M unit) w a w' w'' :
  c w = (Ok a, w') -> h w' = (Ok tt, w'') -> finally c h w = (Ok a, w'').
Proof.
  intros Hc Hh. unfold finally. rewrite Hc. unfold bind. rewrite Hh. reflexivity.
Qed.

Lemma run_attempt_ok {A} (c : M A) w a w' :
  c w = (Ok a, w') -> attempt c w = (Ok (inr a), w').
Proof. intros H. unfold attempt. rewrite H. reflexivity. Qed.

Lemma run_attempt_raise {A} (c : M A) w e w' :
  c w = (Raise e, w') -> attempt c w = (Ok (inl e), w').
Proof. intros H. unfold attempt. rewrite H. reflexivity. Qed.

Lemma run_get_tape t tp w : tapes w !! t = Some tp -> get_tape t w = (Ok tp, w).
Proof. intros H. unfold get_tape. rewrite H. reflexivity. Qed.

Lemma run_get_areal l x w : areals w !! l = Some x -> get_areal l w = (Ok x, w).
Proof. intros H. unfold get_areal. rewrite H. reflexivity. Qed.

Lemma run_get_world {B} (k : World -> M B) w : bind get_world k w = k w w.
Proof. reflexivity. Qed.

Ltac run_with H := rewrite (run_bind _ _ _ _ _ H).
Ltac run_tape H := rewrite (run_bind _ _ _ _ _ (run_get_tape _ _ _ H)).
Ltac run_areal H := rewrite (run_bind _ _ _ _ _ (run_get_areal _ _ _ H)).

Lemma run_Real_new v w :
  Real_new v w
  = (Ok (length (areals w)),
     World_new_areal {| adj_value := v; adj_registration := None |} w).
Proof. reflexivity. Qed.

Lemma run_Tape_new w :
  Tape_new w = (Ok (length (tapes w)), World_new_tape Tape_empty w).
Proof. reflexivity. Qed.

Lemma run_activate th t tp w :
  active_tape w !! th = None -> tapes w !! t = Some tp -> active tp = false ->
  activate th t w
  = (Ok tt, World_set_active_tape (<[th := t]> (active_tape w))
              (World_set_tape t (with_active true tp) w)).
Proof.
  intros Hth Ht Hoff. unfold activate. rewrite run_get_world.
  rewrite Hth. run_tape Ht. rewrite Hoff. reflexivity.
Qed.

Lemma run_deactivate th t tp w :
  active_tape w !! th = Some t -> tapes w !! t = Some tp ->
  deactivate th t w
  = (Ok tt, World_set_active_tape (delete th (active_tape w))
              (World_set_tape t (with_active false tp) w)).
Proof.
  intros Hth Ht. unfold deactivate. rewrite run_get_world.
  run_tape Ht. rewrite decide_True by assumption. reflexivity.
Qed.

Lemma run_registerInput t l tp x w :
  tapes w !! t = Some tp -> areals w !! l = Some x -> active tp = true ->
  registerInput t l w
  = (Ok tt,
     World_set_areal l
       {| adj_value := adj_value x;
          adj_registration := Some (t, length (entries tp)) |}
       (World_set_tape t (push_entry OpInput [] tp).1 w)).
Proof.
  intros Ht Hl Hon. unfold registerInput. run_tape Ht. run_areal Hl.
  rewrite Hon. reflexivity.
Qed.

Lemma run_registerOutput t l tp x w :
  tapes w !! t = Some tp -> areals w !! l = Some x ->
  is_Some (adj_registration x) ->
  registerOutput t l w = (Ok tt, w).
Proof.
  intros Ht Hl [r Hr]. unfold registerOutput. run_tape Ht. run_areal Hl.
  rewrite Hr. reflexivity.
Qed.

Lemma run_getPosition t tp w :
  tapes w !! t = Some tp -> getPosition t w = (Ok (length (entries tp)), w).
Proof. intros Ht. unfold getPosition. run_tape Ht. reflexivity. Qed.

Lemma run_newRecording t tp w :
  tapes w !! t = Some tp ->
  newRecording t w
  = (Ok tt, World_set_tape t (with_recording_start (length (entries tp)) tp) w).
Proof. intros Ht. unfold newRecording. run_tape Ht. reflexivity. Qed.

Lemma run_Tape_setDerivative t s d tp d0 w :
  tapes w !! t = Some tp -> derivatives tp !! s = Some d0 ->
  Tape_setDerivative t s d w
  = (Ok tt,
     World_set_tape t
       (with_seeded true (with_derivatives (<[s := d]> (derivatives tp)) tp)) w).
Proof.
  intros Ht Hs. unfold Tape_setDerivative. run_tape Ht. rewrite Hs. reflexivity.
Qed.

Lemma run_Tape_getDerivative t s tp w :
  tapes w !! t = Some tp ->
  Tape_getDerivative t s w
  = (match derivatives tp !! s with
     | Some d => Ok d
     | None => Raise OutOfRange
     end, w).
Proof.
  intros Ht. unfold Tape_getDerivative. run_tape Ht.
  destruct (derivatives tp !! s); reflexivity.
Qed.

Lemma run_AReal_setDerivative th l d t t0 s x tp d0 w :
  active_tape w !! th = Some t -> areals w !! l = Some x ->
  adj_registration x = Some (t0, s) ->
  tapes w !! t = Some tp -> derivatives tp !! s = Some d0 ->
  AReal_setDerivative th l d w
  = (Ok tt,
     World_set_tape t
       (with_seeded true (with_derivatives (<[s := d]> (derivatives tp)) tp)) w).
Proof.
  intros Hth Hl Hr Ht Hs. unfold AReal_setDerivative.
  rewrite run_get_world, Hth. run_areal Hl. rewrite Hr.
  eapply run_Tape_setDerivative; eassumption.
Qed.

Lemma run_AReal_getDerivative th l t t0 s x tp w :
  active_tape w !! th = Some t -> areals w !! l = Some x ->
  adj_registration x = Some (t0, s) -> tapes w !! t = Some tp ->
  AReal_getDerivative th l w
  = (match derivatives tp !! s with
     | Some d => Ok d
     | None => Raise OutOfRange
     end, w).
Proof.
  intros Hth Hl Hr Ht. unfold AReal_getDerivative.
  rewrite run_get_world, Hth. run_areal Hl. rewrite Hr.
  apply run_Tape_getDerivative; assumption.
Qed.

Lemma run_derivative th l t t0 s x tp d w :
  active_tape w !! th = Some t -> areals w !! l = Some x ->
  adj_registration x = Some (t0, s) -> tapes w !! t = Some tp ->
  derivatives tp !! s = Some d ->
  xad_autodiff.derivative th (PyAReal l) w = (Ok (PyFloat d), w).
Proof.
  intros Hth Hl Hr Ht Hd. unfold xad_autodiff.derivative, getDerivative, bind. simpl.
  rewrite (run_AReal_getDerivative _ _ _ _ _ _ _ _ Hth Hl Hr Ht), Hd. reflexivity.
Qed.

Lemma run_derivative_out_of_range th l t t0 s x tp w :
  active_tape w !! th = Some t -> areals w !! l = Some x ->
  adj_registration x = Some (t0, s) -> tapes w !! t = Some tp ->
  derivatives tp !! s = None ->
  xad_autodiff.derivative th (PyAReal l) w = (Raise OutOfRange, w).
Proof.
  intros Hth Hl Hr Ht Hd. unfold xad_autodiff.derivative, getDerivative, bind. simpl.
  rewrite (run_AReal_getDerivative _ _ _ _ _ _ _ _ Hth Hl Hr Ht), Hd. reflexivity.
Qed.

Lemma run_value l x w :
  areals w !! l = Some x ->
  xad_autodiff.value (PyAReal l) w = (Ok (PyFloat (adj_value x)), w).
Proof.
  intros Hl. unfold xad_autodiff.value, getValue, AReal_getValue. simpl.
  rewrite bind_assoc. run_areal Hl. reflexivity.
Qed.

Lemma run_computeAdjointsTo t pos tp w :
  tapes w !! t = Some tp -> seeded tp = true ->
  computeAdjointsTo t pos w
  = (Ok tt,
     World_set_tape t
       (with_derivatives
          (reverse_sweep (drop pos (entries tp)) (derivatives tp)) tp) w).
Proof.
  intros Ht Hsd. unfold computeAdjointsTo. run_tape Ht. rewrite Hsd. reflexivity.
Qed.

Lemma run_resetTo t pos tp w :
  tapes w !! t = Some tp -> (pos <= length (entries tp))%nat ->
  resetTo t pos w
  = (Ok tt,
     World_set_tape t
       (with_derivatives (take pos (derivatives tp))
          (with_entries (take pos (entries tp)) tp)) w).
Proof.
  intros Ht Hpos. unfold resetTo. run_tape Ht.
  rewrite decide_True by assumption. reflexivity.
Qed.

Lemma run_clearDerivatives t tp w :
  tapes w !! t = Some tp ->
  clearDerivatives t w
  = (Ok tt,
     World_set_tape t
       (with_derivatives (replicate (length (derivatives tp)) float_zero) tp) w).
Proof. intros Ht. unfold clearDerivatives. run_tape Ht. reflexivity. Qed.

Lemma run_clearDerivativesAfter t pos tp w :
  tapes w !! t = Some tp ->
  clearDerivativesAfter t pos w
  = (Ok tt, World_set_tape t (with_derivatives (take pos (derivatives tp)) tp) w).
Proof. intros Ht. unfold clearDerivativesAfter. run_tape Ht. reflexivity. Qed.

Lemma run_operand_recording th l t s x w :
  active_tape w !! th = Some t -> areals w !! l = Some x ->
  adj_registration x = Some (t, s) ->
  operand th (PyAReal l) w = (Ok (adj_value x, Some s), w).
Proof.
  intros Hth Hl Hr. unfold operand, shouldRecord.
  run_areal Hl. rewrite bind_assoc, run_get_world. rewrite bind_assoc. run_areal Hl.
  rewrite Hr, Hth. rewrite bind_ret_l, bool_decide_eq_true_2 by reflexivity.
  reflexivity.
Qed.

Lemma run_binary_op th k f da db a b va sa vb sb t tp w :
  operand th a w = (Ok (va, sa), w) -> operand th b w = (Ok (vb, sb), w) ->
  partial sa (da va vb) ++ partial sb (db va vb) <> [] ->
  active_tape w !! th = Some t -> tapes w !! t = Some tp ->
  binary_op th k f da db a b w
  = (Ok (length (areals w)),
     World_new_areal
       {| adj_value := f va vb;
          adj_registration := Some (t, length (entries tp)) |}
       (World_set_tape t
          (push_entry k (partial sa (da va vb) ++ partial sb (db va vb)) tp).1 w)).
Proof.
  intros Ha Hb Hins Hth Ht. unfold binary_op.
  run_with Ha. run_with Hb. rewrite run_get_world. cbn [fst snd].
  destruct (partial sa (da va vb) ++ partial sb (db va vb)) as [| ip ins] eqn:E;
    [congruence |].
  rewrite Hth. run_tape Ht. reflexivity.
Qed.


(** ** Loops *)

(** Chaining the calls from the left is the loop started after what has
    been chained so far. *)
Lemma fold_calls_for_each {A} (call : A -> M unit) (vs : list A) :
  forall (done : M unit) w,
    fold_left (fun done v => done ;; call v) vs done w
    = (done ;; for_each call vs) w.
Proof.
  induction vs as [| v vs IH]; intros done w; simpl.
  - unfold bind, ret. destruct (done w) as [[[] | e |] w']; reflexivity.
  - rewrite IH. apply bind_assoc.
Qed.

Lemma calls_in_order_for_each {A} (call : A -> M unit) (vs : list A) w :
  calls_in_order call vs w = for_each call vs w.
Proof.
  unfold calls_in_order. rewrite fold_calls_for_each. reflexivity.
Qed.

(** C9: [registerInputs(vs)] on a tape does what the calls
    [registerInput(v)], for each [v] of [vs] in order, do one after the
    other: same result (or same exception) and same final state; likewise
    [registerOutputs(vs)] and the calls [registerOutput(v)]. *)
Theorem register_all_is_calls_in_order (t : tape_id) (vs : list loc) (w : World) :
  adj_1st._register_inputs t vs w = calls_in_order (registerInput t) vs w
  /\ adj_1st._register_outputs t vs w = calls_in_order (registerOutput t) vs w.
Proof.
  split; symmetry; apply calls_in_order_for_each.
Qed.

(** On an active tape and variables that exist, [registerInputs] returns,
    leaves the tape active and moves the position by the number of
    variables: every one of them gets a slot of its own. *)
Lemma register_inputs_position (t : tape_id) (vs : list loc) :
  forall (w : World) (tp : Tape),
    tapes w !! t = Some tp -> active tp = true ->
    Forall (fun l => (l < length (areals w))%nat) vs ->
    exists w' tp',
      adj_1st._register_inputs t vs w = (Ok tt, w')
      /\ tapes w' !! t = Some tp' /\ active tp' = true
      /\ length (entries tp') = (length (entries tp) + length vs)%nat
      /\ length (areals w') = length (areals w).
Proof.
  unfold adj_1st._register_inputs.
  induction vs as [| v vs IH]; intros w tp Ht Hon Hvs.
  - exists w, tp. cbn [for_each length]. rewrite Nat.add_0_r. auto.
  - apply Forall_cons in Hvs as [Hv Hvs].
    destruct (lookup_lt_is_Some_2 _ _ Hv) as [x Hx].
    cbn [for_each]. rewrite (run_bind _ _ _ _ _ (run_registerInput _ _ _ _ _ Ht Hx Hon)).
    set (w1 := World_set_areal v _ _).
    destruct (IH w1 (push_entry OpInput [] tp).1) as (w' & tp' & Hrun & Ht' & Hon' & Hlen & Hars).
    + subst w1. cbn [tapes World_set_areal World_set_tape].
      apply list_lookup_insert_eq. eapply lookup_lt_Some. exact Ht.
    + exact Hon.
    + subst w1. cbn [areals World_set_areal World_set_tape].
      rewrite length_insert. exact Hvs.
    + exists w', tp'. rewrite Hrun. repeat split; try assumption.
      * rewrite Hlen. cbn [push_entry fst entries with_derivatives with_entries length].
        rewrite length_app. cbn [length]. lia.
      * rewrite Hars. subst w1. cbn [areals World_set_areal World_set_tape].
        apply length_insert.
Qed.

(** ** Activation *)

(** C4: on a thread that has an active tape, [activate] on any tape raises
    [TapeAlreadyActive] and changes nothing, whether the tape is the active
    one itself or another one. *)
Theorem activate_when_thread_has_active_tape
    (th : thread) (t t' : tape_id) (w : World) :
  active_tape w !! th = Some t' ->
  activate th t w = (Raise TapeAlreadyActive, w).
Proof.
  intros Hact. unfold activate, bind, get_world. rewrite Hact. reflexivity.
Qed.

(** The other failure of [activate]: the tape is active already (on
    whichever thread). *)
Lemma activate_active_tape (th : thread) (t : tape_id) (tp : Tape) (w : World) :
  tapes w !! t = Some tp -> active tp = true ->
  activate th t w = (Raise TapeAlreadyActive, w).
Proof.
  intros Ht Hon. unfold activate, bind, get_world, get_tape.
  destruct (active_tape w !! th); [reflexivity |].
  rewrite Ht, Hon. reflexivity.
Qed.

(** ** Derivative accessors without a tape *)

(** C5: on a thread without an active tape, [setDerivative] on an adjoint
    variable raises [NoTapeException] (for an unregistered variable as for
    any other) and changes nothing. *)
Theorem setDerivative_without_active_tape
    (th : thread) (l : loc) (d : float) (w : World) :
  active_tape w !! th = None ->
  AReal_setDerivative th l d w = (Raise NoTapeException, w).
Proof.
  intros Hnone. unfold AReal_setDerivative, bind, get_world.
  rewrite Hnone. reflexivity.
Qed.

Lemma activate_when_thread_has_active_tape_witness :
  active_tape World_sample !! 0%nat = Some 0%nat
  /\ activate 0%nat 0%nat World_sample = (Raise TapeAlreadyActive, World_sample)
  /\ activate 0%nat 1%nat World_sample = (Raise TapeAlreadyActive, World_sample).
Proof.
  split; [reflexivity |].
  split.
  - apply (activate_when_thread_has_active_tape 0%nat 0%nat 0%nat World_sample).
    reflexivity.
  - apply (activate_when_thread_has_active_tape 0%nat 1%nat 0%nat World_sample).
    reflexivity.
Defined.

Lemma setDerivative_without_active_tape_witness :
  active_tape World_sample !! 7%nat = None
  /\ (adj_registration <$> areals World_sample !! 0%nat) = Some None
  /\ AReal_setDerivative 7%nat 0%nat 1%float World_sample
     = (Raise NoTapeException, World_sample).
Proof.
  split; [reflexivity |].
  split; [reflexivity |].
  apply (setDerivative_without_active_tape 7%nat 0%nat 1%float World_sample).
  reflexivity.
Defined.

(** ** The free functions [value] and [derivative] *)

(** C6: [value(x)] is [x.getValue()] for an adjoint-mode or forward-mode
    [Real] (the float stored in the variable), and [x] itself for every other
    object, a string for one. *)
Theorem value_of_active_type_or_identity (w : World) :
  (forall l, xad_autodiff.value (PyAReal l) w = getValue (PyAReal l) w)
  /\ (forall r, xad_autodiff.value (PyFReal r) w = getValue (PyFReal r) w)
  /\ (forall l a, areals w !! l = Some a ->
        xad_autodiff.value (PyAReal l) w = (Ok (PyFloat (adj_value a)), w))
  /\ (forall r, xad_autodiff.value (PyFReal r) w = (Ok (PyFloat (fwd_value r)), w))
  /\ (forall x, isinstance_adj_Real x = false -> isinstance_fwd_Real x = false ->
        xad_autodiff.value x w = (Ok x, w))
  /\ xad_autodiff.value (PyStr "3") w = (Ok (PyStr "3"), w).
Proof.
  repeat split.
  - intros l a Hl. apply run_value. exact Hl.
  - intros x Hadj Hfwd. unfold xad_autodiff.value. rewrite Hadj, Hfwd. reflexivity.
Qed.

(** C7: [derivative(x)] is [x.getDerivative()] for an adjoint-mode or
    forward-mode [Real], and raises [TypeError] for every other object, a
    plain [int] or [float] for one; the state is left as it was. *)
Theorem derivative_of_active_type_or_TypeError (th : thread) (w : World) :
  (forall l, xad_autodiff.derivative th (PyAReal l) w = getDerivative th (PyAReal l) w)
  /\ (forall r, xad_autodiff.derivative th (PyFReal r) w = getDerivative th (PyFReal r) w)
  /\ (forall r, xad_autodiff.derivative th (PyFReal r) w
                = (Ok (PyFloat (fwd_derivative r)), w))
  /\ (forall x, isinstance_adj_Real x = false -> isinstance_fwd_Real x = false ->
        xad_autodiff.derivative th x w
        = (Raise (TypeError ("type " ++ type_name x ++ " is not an XAD active type")), w))
  /\ xad_autodiff.derivative th (PyInt 1) w
     = (Raise (TypeError "type int is not an XAD active type"), w)
  /\ xad_autodiff.derivative th (PyFloat 1%float) w
     = (Raise (TypeError "type float is not an XAD active type"), w).
Proof.
  repeat split.
  intros x Hadj Hfwd. unfold xad_autodiff.derivative. rewrite Hadj, Hfwd. reflexivity.
Qed.

(** ** Hashing *)

(** The hash of a float respects [==]: floats that compare equal hash
    alike, at whatever addresses; this covers 0.0 and -0.0, and leaves out a
    NaN, which equals nothing. *)
Lemma Py_HashDouble_eqb (p1 p2 : Z) (v1 v2 : float) :
  (v1 =? v2)%float = true -> _Py_HashDouble p1 v1 = _Py_HashDouble p2 v2.
Proof.
  rewrite FloatAxioms.eqb_spec. unfold _Py_HashDouble, SFeqb, SFcompare.
  destruct (Prim2SF v1) as [s1 | s1 | | s1 m1 e1],
           (Prim2SF v2) as [s2 | s2 | | s2 m2 e2];
    intros H; try reflexivity; try discriminate H;
    repeat match goal with s : bool |- _ => destruct s end;
    try reflexivity; try discriminate H;
    destruct (Z.compare e1 e2) eqn:He; try discriminate H;
    destruct (Pos.compare_cont Eq m1 m2) eqn:Hm; try discriminate H;
    apply Z.compare_eq in He; apply Pos.compare_eq in Hm; subst; reflexivity.
Qed.

Lemma run_hash (p : Z) (x : pyobj) (v : float) (w : World) :
  holds w x v -> hash p x w = (Ok (_Py_HashDouble p v), w).
Proof.
  destruct x as [| b | z | f | s | l | r]; cbn [holds]; try contradiction.
  - intros ->. reflexivity.
  - intros (a & Hl & <-).
    unfold hash, adj_1st._hash, adj_1st.value, AReal_getValue, get_areal, bind.
    rewrite Hl. reflexivity.
  - intros <-. reflexivity.
Qed.

(** C10: the hash of an adjoint-mode or forward-mode [Real] is the hash
    of the float object that [x.value] creates, which for a NaN is the hash
    of the identity of that object.  So objects that stand for doubles that
    compare equal (adjoint variables, forward variables, plain floats: which
    leaves out a NaN, and takes 0.0 and -0.0 together) hash alike, whatever
    their registration, their derivative and the addresses. *)
Theorem hash_of_Real_is_hash_of_value (w : World) :
  (forall x v p, holds w x v -> hash p x w = (Ok (_Py_HashDouble p v), w))
  /\ (forall x1 x2 v1 v2 p1 p2,
        holds w x1 v1 -> holds w x2 v2 -> (v1 =? v2)%float = true ->
        hash p1 x1 w = hash p2 x2 w).
Proof.
  split.
  - intros x v p Hx. apply run_hash. exact Hx.
  - intros x1 x2 v1 v2 p1 p2 H1 H2 Heq.
    rewrite (run_hash p1 x1 v1 w H1), (run_hash p2 x2 v2 w H2).
    rewrite (Py_HashDouble_eqb p1 p2 v1 v2 Heq). reflexivity.
Qed.

Lemma hash_of_Real_is_hash_of_value_witness :
  hash 139830719150576 (PyAReal 0%nat) World_in_tape
  = hash 139830719150448 (PyFloat 1%float) World_in_tape
  /\ hash 139830719150576 (PyFReal (FReal_new (-0)%float)) World_in_tape
     = hash 139830719150448 (PyFloat 0%float) World_in_tape.
Proof.
  split.
  - apply (proj2 (hash_of_Real_is_hash_of_value World_in_tape)
             (PyAReal 0%nat) (PyFloat 1%float) 1%float 1%float).
    + eexists. split; reflexivity.
    + reflexivity.
    + reflexivity.
  - apply (proj2 (hash_of_Real_is_hash_of_value World_in_tape)
             (PyFReal (FReal_new (-0)%float)) (PyFloat 0%float)
             (-0)%float 0%float); reflexivity.
Defined.

(** C10, where it fails: [v = float("nan")] is at address 139830719150448
    and [x = Real(v)]; while [v] lives, the float that [x.value] creates is
    at another address, here 139830719150576.  Then [hash(x)] is
    8739419946911 and [hash(v)] is 8739419946903. *)
Lemma hash_of_nan_Real_is_not_hash_of_nan :
  holds World_nan (PyAReal 0%nat) nan
  /\ fst (hash 139830719150576 (PyAReal 0%nat) World_nan) = Ok 8739419946911
  /\ fst (hash 139830719150448 (PyFloat nan) World_nan) = Ok 8739419946903
  /\ hash 139830719150576 (PyAReal 0%nat) World_nan
     <> hash 139830719150448 (PyFloat nan) World_nan.
Proof.
  split; [eexists; split; reflexivity |].
  split; [vm_compute; reflexivity |].
  split; [vm_compute; reflexivity |].
  intros H. apply (f_equal fst) in H. vm_compute in H. discriminate H.
Qed.

(** ** The derivative array *)

Lemma length_accumulate s x ds : length (accumulate s x ds) = length ds.
Proof. apply length_alter. Qed.

Lemma length_propagate e ds : length (propagate e ds) = length ds.
Proof.
  unfold propagate. generalize (default float_zero (ds !! output e)). intros a.
  revert ds. induction (inputs e) as [| ip ins IH]; intros ds; simpl.
  - reflexivity.
  - rewrite IH. apply length_accumulate.
Qed.

(** The reverse pass keeps the size of the derivative array. *)
Lemma length_reverse_sweep es ds : length (reverse_sweep es ds) = length ds.
Proof.
  induction es as [| e es IH]; simpl.
  - reflexivity.
  - rewrite length_propagate. exact IH.
Qed.

(** The slot of a fresh entry holds what was put there, the older slots
    are as they were. *)
Lemma lookup_fresh_slot n (x : float) ds :
  (resize n float_zero ds ++ [x]) !! n = Some x.
Proof. apply list_lookup_middle. rewrite length_resize. reflexivity. Qed.

Lemma lookup_older_slot n (x : float) ds s :
  (s < n)%nat -> (s < length ds)%nat ->
  (resize n float_zero ds ++ [x]) !! s = ds !! s.
Proof.
  intros Hn Hs. rewrite lookup_app_l by (rewrite length_resize; exact Hn).
  apply lookup_resize; assumption.
Qed.

Lemma insert_fresh_slot n (x d : float) ds :
  <[n := d]> (resize n float_zero ds ++ [x]) = resize n float_zero ds ++ [d].
Proof.
  rewrite insert_app_r_alt by (rewrite length_resize; reflexivity).
  rewrite length_resize, Nat.sub_diag. reflexivity.
Qed.

(** ** Looking things up in an updated state *)

Ltac world_simpl :=
  cbn [areals tapes active_tape World_set_areal World_new_areal World_set_tape
       World_new_tape World_set_active_tape entries derivatives active
       recording_start seeded with_entries with_derivatives with_active
       with_recording_start with_seeded push_entry fst snd adj_value
       adj_registration Tape_empty app].

Ltac length_solve :=
  repeat first [ rewrite length_insert | rewrite length_app ]; cbn [length];
  repeat match goal with
  | H : ?l !! ?i = Some _ |- _ =>
      lazymatch goal with
      | _ : (i < length l)%nat |- _ => fail
      | _ => pose proof (lookup_lt_Some l i _ H)
      end
  end; lia.

Ltac lookup_simpl :=
  world_simpl;
  rewrite ?list_insert_insert_eq;
  repeat first
    [ rewrite lookup_insert_eq
    | rewrite list_lookup_insert_eq by length_solve
    | rewrite list_lookup_middle by reflexivity
    | rewrite lookup_app_l by length_solve ].

Ltac lookup_solve :=
  lazymatch goal with
  | |- _ =>
      lookup_simpl;
      first [ eassumption | reflexivity | eexists; reflexivity
            | apply lookup_fresh_slot | length_solve ]
  end.

Ltac run L := erewrite run_bind by (eapply L; lookup_solve).

Ltac operand_solve :=
  lazymatch goal with
  | |- operand _ (PyAReal _) _ = _ => eapply run_operand_recording; lookup_solve
  | |- _ => reflexivity
  end.

Ltac run_op :=
  erewrite run_bind
    by (eapply run_binary_op;
        [ operand_solve | operand_solve | discriminate
        | lookup_solve | lookup_solve ]).

(** ** The replay loop *)

Section ReplayLoop.

Variables (th : thread) (t : tape_id) (i : loc) (s : slot) (es : list entry).

(** One round of the loop keeps the state it runs in, and appends the value
    of [p * i] and the derivative of [i] that the reverse pass leaves. *)
Lemma replay_step_spec acc p w :
  replay_inv th t i s es w ->
  exists w',
    replay_step th t i (length es) acc p w
    = (Ok (fst acc ++ [PyFloat (float_of_int p * 2)%float],
           snd acc ++ [PyFloat (0 + float_of_int p * 1)%float]), w')
    /\ replay_inv th t i s es w'.
Proof.
  intros (Hth & Hi & tp & Ht & Hes & Hds & Hs).
  pose proof (lookup_lt_Some _ _ _ Hds) as Hsd.
  unfold replay_step, AReal_mul.
  erewrite run_bind
    by (eapply run_binary_op;
        [ reflexivity
        | eapply run_operand_recording; first [ eassumption | reflexivity ]
        | discriminate | eassumption | eassumption ]).
  cbn [partial app].
  run run_registerOutput.
  run run_AReal_setDerivative.
  run run_computeAdjointsTo.
  run run_value.
  world_simpl. rewrite insert_fresh_slot, Hes, drop_app_length.
  (* what the reverse pass leaves at the slot of [i] *)
  assert (Hder :
    reverse_sweep [mkEntry OpMul [(s, float_of_int p)] (length es)]
      (resize (length es) float_zero (derivatives tp) ++ [1%float]) !! s
    = Some (0 + float_of_int p * 1)%float).
  { cbn [reverse_sweep fold_right]. unfold propagate.
    cbn [inputs output fold_left fst snd].
    rewrite lookup_fresh_slot. cbn [default]. unfold accumulate.
    rewrite list_lookup_alter_eq, lookup_older_slot by assumption.
    rewrite Hds. reflexivity. }
  erewrite run_bind
    by (eapply run_derivative; [lookup_solve .. | world_simpl; exact Hder]).
  run run_resetTo.
  run run_clearDerivatives.
  eexists. split; [reflexivity |].
  split; [lookup_solve |]. split; [lookup_solve |].
  eexists. split; [lookup_solve |]. world_simpl.
  split; [apply take_app_length |]. split; [| assumption].
  apply lookup_replicate_2.
  rewrite length_take, length_reverse_sweep, length_app, length_resize.
  cbn [length]. lia.
Qed.

(** The whole loop, over any list of integers. *)
Lemma replay_loop_spec ps :
  forall acc w,
    replay_inv th t i s es w ->
    exists w',
      for_fold (replay_step th t i (length es)) ps acc w
      = (Ok (fst acc ++ map (fun p => PyFloat (float_of_int p * 2)%float) ps,
             snd acc ++ map (fun p => PyFloat (0 + float_of_int p * 1)%float) ps),
         w')
      /\ replay_inv th t i s es w'.
Proof.
  induction ps as [| p ps IH]; intros acc w Hinv; cbn [for_fold map].
  - exists w. rewrite !app_nil_r. destruct acc. split; [reflexivity | assumption].
  - destruct (replay_step_spec acc p w Hinv) as (w1 & Hrun & Hinv1).
    rewrite (run_bind _ _ _ _ _ Hrun).
    edestruct (IH (fst acc ++ [PyFloat (float_of_int p * 2)%float],
                   snd acc ++ [PyFloat (0 + float_of_int p * 1)%float]) w1 Hinv1)
      as (w2 & Hrun2 & Hinv2).
    exists w2. split; [| assumption].
    rewrite Hrun2. cbn [fst snd]. rewrite <- !app_assoc. reflexivity.
Qed.

End ReplayLoop.

(** C1: in [test_reset_to_and_compute_adjoints_to_usage], on a thread
    without an active tape, the loop over [p = 1, ..., 9] collects the
    values [2.0, 4.0, ..., 18.0] of [v = p * i] and the derivatives
    [1.0, 2.0, ..., 9.0] of [i]. *)
Theorem replay_loop_values_and_derivatives (th : thread) (w : World) :
  active_tape w !! th = None ->
  fst (test_reset_to_and_compute_adjoints_to_usage th w)
  = Ok (PyFloat <$> [2; 4; 6; 8; 10; 12; 14; 16; 18]%float,
        PyFloat <$> [1; 2; 3; 4; 5; 6; 7; 8; 9]%float).
Proof.
  intros Hidle.
  unfold test_reset_to_and_compute_adjoints_to_usage, with_new_tape, with_tape.
  run run_Real_new. run run_Tape_new. run run_activate.
  world_simpl. set (i := length (areals w)). set (t := length (tapes w)).
  unfold finally.
  run run_registerInput. run run_newRecording. run run_getPosition.
  world_simpl.
  match goal with
  | |- context [for_fold _ _ _ ?W] => set (W3 := W)
  end.
  match goal with
  | |- context [for_fold _ _ _ ?W] =>
      destruct (replay_loop_spec th t i 0%nat [mkEntry OpInput [] 0%nat]
                  (seqZ 1 9) ([], []) W) as (w' & Hrun & Hinv)
  end.
  { subst W3. split; [lookup_solve |]. split; [lookup_solve |].
    eexists. split; [lookup_solve |]. world_simpl.
    split; [reflexivity |]. split; [reflexivity | cbn [length]; lia]. }
  cbn [length] in Hrun |- *. rewrite Hrun.
  destruct Hinv as (Hth & _ & tp & Ht & _).
  erewrite run_bind by (eapply run_deactivate; eassumption).
  reflexivity.
Qed.

Lemma replay_loop_values_and_derivatives_witness :
  active_tape World_init !! 0%nat = None
  /\ fst (test_reset_to_and_compute_adjoints_to_usage 0%nat World_init)
     = Ok (PyFloat <$> [2; 4; 6; 8; 10; 12; 14; 16; 18]%float,
           PyFloat <$> [1; 2; 3; 4; 5; 6; 7; 8; 9]%float).
Proof.
  split; [reflexivity |].
  apply (replay_loop_values_and_derivatives 0%nat World_init). reflexivity.
Defined.

(** C2: in [test_clear_derivative_after], on a thread without an active
    tape: after [clearDerivativesAfter(pos)], the derivatives of [x1] and
    [x2] read 1.0, and reading the derivative of [x3] or of [x4] raises
    [OutOfRange]. *)
Theorem clear_derivatives_after_checkpoint (th : thread) (w : World) :
  active_tape w !! th = None ->
  fst (test_clear_derivative_after th w)
  = Ok [inr (PyFloat 1%float); inr (PyFloat 1%float);
        inl OutOfRange; inl OutOfRange].
Proof.
  intros Hidle.
  unfold test_clear_derivative_after, with_new_tape, with_tape.
  run run_Tape_new. run run_activate.
  world_simpl. set (t := length (tapes w)).
  unfold finally, AReal_mul, AReal_add.
  run run_Real_new. run run_registerInput.
  run_op. run run_getPosition. run_op. run_op. run_op.
  run run_registerOutput.
  do 4 run run_AReal_setDerivative.
  run run_clearDerivativesAfter.
  do 2 erewrite run_bind
    by (eapply run_attempt_ok; eapply run_derivative; lookup_solve).
  do 2 erewrite run_bind
    by (eapply run_attempt_raise; eapply run_derivative_out_of_range; lookup_solve).
  unfold ret at 1.
  run run_deactivate.
  reflexivity.
Qed.

Lemma clear_derivatives_after_checkpoint_witness :
  active_tape World_init !! 0%nat = None
  /\ fst (test_clear_derivative_after 0%nat World_init)
     = Ok [inr (PyFloat 1%float); inr (PyFloat 1%float);
           inl OutOfRange; inl OutOfRange].
Proof.
  split; [reflexivity |].
  apply (clear_derivatives_after_checkpoint 0%nat World_init). reflexivity.
Defined.

(** * Further properties *)

(** ** Activation and the scoped acquisition *)

(** X1: on a thread without an active tape, [activate] on a tape that is not
    active returns; then [isActive] is true and [getActive] gives the tape;
    and [deactivate] after it leaves the whole state exactly as it was
    before the two calls ([test_active_tape], [test_get_active]). *)
Theorem activate_deactivate_restores
    (th : thread) (t : tape_id) (tp : Tape) (w : World) :
  active_tape w !! th = None -> tapes w !! t = Some tp -> active tp = false ->
  getActive th w = (Ok None, w)
  /\ exists w1,
       activate th t w = (Ok tt, w1)
       /\ isActive t w1 = (Ok true, w1)
       /\ getActive th w1 = (Ok (Some t), w1)
       /\ deactivate th t w1 = (Ok tt, w).
Proof.
  intros Hidle Ht Hoff.
  split; [unfold getActive; rewrite run_get_world, Hidle; reflexivity |].
  eexists. split; [eapply run_activate; eassumption |].
  set (w1 := World_set_active_tape _ _).
  assert (Ht1 : tapes w1 !! t = Some (with_active true tp)) by (subst w1; lookup_solve).
  assert (Hth1 : active_tape w1 !! th = Some t) by (subst w1; lookup_solve).
  split; [| split].
  - unfold isActive. run_tape Ht1. reflexivity.
  - unfold getActive. rewrite run_get_world, Hth1. reflexivity.
  - rewrite (run_deactivate _ _ _ _ Hth1 Ht1).
    f_equal. destruct w as [la lt am], tp as [es ds act rs sd].
    cbn [active_tape tapes active] in Hidle, Ht, Hoff. subst act. subst w1.
    unfold World_set_active_tape, World_set_tape, with_active. world_simpl.
    rewrite list_insert_insert_eq, (list_insert_id _ _ _ Ht).
    rewrite delete_insert_eq, (delete_id _ _ Hidle). reflexivity.
Qed.

Lemma activate_deactivate_restores_witness :
  getActive 0%nat World_one_tape = (Ok None, World_one_tape)
  /\ exists w1,
       activate 0%nat 0%nat World_one_tape = (Ok tt, w1)
       /\ isActive 0%nat w1 = (Ok true, w1)
       /\ getActive 0%nat w1 = (Ok (Some 0%nat), w1)
       /\ deactivate 0%nat 0%nat w1 = (Ok tt, World_one_tape).
Proof.
  apply (activate_deactivate_restores 0%nat 0%nat Tape_empty World_one_tape);
    reflexivity.
Defined.

(** X2: [with tape: body] passes on what the body returns or raises, and in
    both cases the tape is inactive and the thread without an active tape
    afterwards, provided the body leaves the tape the active one of the
    thread ([test_tape_using_with]).  The exit touches neither the variables
    nor the log. *)
Theorem with_tape_releases {A} (th : thread) (t : tape_id) (tp tp2 : Tape)
    (body : M A) (r : outcome A) (w w2 : World) :
  active_tape w !! th = None -> tapes w !! t = Some tp -> active tp = false ->
  body (snd (activate th t w)) = (r, w2) -> r <> Undefined ->
  active_tape w2 !! th = Some t -> tapes w2 !! t = Some tp2 ->
  exists w3,
    with_tape th t body w = (r, w3)
    /\ active_tape w3 !! th = None
    /\ tapes w3 !! t = Some (with_active false tp2)
    /\ isActive t w3 = (Ok false, w3)
    /\ areals w3 = areals w2.
Proof.
  intros Hidle Ht Hoff Hbody Hr Hth2 Ht2.
  rewrite (run_activate _ _ _ _ Hidle Ht Hoff) in Hbody. cbn [snd] in Hbody.
  exists (World_set_active_tape (delete th (active_tape w2))
            (World_set_tape t (with_active false tp2) w2)).
  assert (Hlook : tapes (World_set_active_tape (delete th (active_tape w2))
                    (World_set_tape t (with_active false tp2) w2)) !! t
                  = Some (with_active false tp2)) by lookup_solve.
  split; [| split; [| split; [| split]]].
  - unfold with_tape. run run_activate. unfold finally. rewrite Hbody.
    destruct r as [a | e |]; [| | congruence].
    + run run_deactivate. reflexivity.
    + run run_deactivate. reflexivity.
  - world_simpl. apply lookup_delete_eq.
  - exact Hlook.
  - unfold isActive. rewrite (run_bind _ _ _ _ _ (run_get_tape _ _ _ Hlook)).
    reflexivity.
  - reflexivity.
Qed.

Lemma with_tape_releases_witness :
  exists w3,
    with_tape 0%nat 0%nat (raise OutOfRange : M unit) World_one_tape
    = (Raise OutOfRange, w3)
    /\ active_tape w3 !! 0%nat = None
    /\ tapes w3 !! 0%nat = Some (with_active false (with_active true Tape_empty))
    /\ isActive 0%nat w3 = (Ok false, w3)
    /\ areals w3 = areals (snd (activate 0%nat 0%nat World_one_tape)).
Proof.
  apply (with_tape_releases 0%nat 0%nat Tape_empty (with_active true Tape_empty)
           (raise OutOfRange) (Raise OutOfRange) World_one_tape
           (snd (activate 0%nat 0%nat World_one_tape)));
    first [ reflexivity | discriminate ].
Defined.

(** ** Registration and the derivative array *)

Lemma run_shouldRecord th l t s x w :
  active_tape w !! th = Some t -> areals w !! l = Some x ->
  adj_registration x = Some (t, s) ->
  shouldRecord th l w = (Ok true, w).
Proof.
  intros Hth Hl Hr. unfold shouldRecord. rewrite run_get_world.
  run_areal Hl. rewrite Hr, Hth.
  unfold ret. rewrite bool_decide_eq_true_2 by reflexivity. reflexivity.
Qed.

(** X3: after [registerInput(x)] on the active tape of the thread, [x] holds
    the value it held, records ([shouldRecord]), and its derivative reads
    0.0, through the free function and through the tape alike
    ([test_derivative], [test_get_derivative], [test_should_record]); the
    position has moved by one. *)
Theorem registerInput_fresh_slot
    (th : thread) (t : tape_id) (l : loc) (tp : Tape) (x : AReal) (w : World) :
  active_tape w !! th = Some t -> tapes w !! t = Some tp -> active tp = true ->
  areals w !! l = Some x ->
  exists w',
    registerInput t l w = (Ok tt, w')
    /\ AReal_getValue l w' = (Ok (adj_value x), w')
    /\ shouldRecord th l w' = (Ok true, w')
    /\ xad_autodiff.derivative th (PyAReal l) w' = (Ok (PyFloat 0%float), w')
    /\ AReal_getSlot l w' = (Ok (Some (length (entries tp))), w')
    /\ Tape_getDerivative t (length (entries tp)) w' = (Ok 0%float, w')
    /\ getPosition t w' = (Ok (S (length (entries tp))), w').
Proof.
  intros Hth Ht Hon Hl.
  eexists. split; [eapply run_registerInput; eassumption |].
  set (w' := World_set_areal _ _ _).
  assert (Hl' : areals w' !! l
                = Some {| adj_value := adj_value x;
                          adj_registration := Some (t, length (entries tp)) |})
    by (subst w'; lookup_solve).
  assert (Ht' : tapes w' !! t = Some (push_entry OpInput [] tp).1)
    by (subst w'; lookup_solve).
  assert (Hth' : active_tape w' !! th = Some t) by (subst w'; lookup_solve).
  assert (Hd : derivatives (push_entry OpInput [] tp).1 !! length (entries tp)
               = Some 0%float) by (world_simpl; apply lookup_fresh_slot).
  repeat split.
  - unfold AReal_getValue. run_areal Hl'. reflexivity.
  - eapply run_shouldRecord; [exact Hth' | exact Hl' | reflexivity].
  - eapply run_derivative; [exact Hth' | exact Hl' | reflexivity | exact Ht' | exact Hd].
  - unfold AReal_getSlot. run_areal Hl'. reflexivity.
  - rewrite (run_Tape_getDerivative _ _ _ _ Ht'), Hd. reflexivity.
  - rewrite (run_getPosition _ _ _ Ht'). world_simpl.
    rewrite length_app. cbn [length]. rewrite Nat.add_1_r. reflexivity.
Qed.

Lemma registerInput_fresh_slot_witness :
  exists w',
    registerInput 0%nat 0%nat World_in_tape = (Ok tt, w')
    /\ AReal_getValue 0%nat w' = (Ok 1%float, w')
    /\ shouldRecord 0%nat 0%nat w' = (Ok true, w')
    /\ xad_autodiff.derivative 0%nat (PyAReal 0%nat) w' = (Ok (PyFloat 0%float), w')
    /\ AReal_getSlot 0%nat w' = (Ok (Some 0%nat), w')
    /\ Tape_getDerivative 0%nat 0%nat w' = (Ok 0%float, w')
    /\ getPosition 0%nat w' = (Ok 1%nat, w').
Proof.
  apply (registerInput_fresh_slot 0%nat 0%nat 0%nat (with_active true Tape_empty)
           {| adj_value := 1%float; adj_registration := None |} World_in_tape);
    reflexivity.
Defined.

(** X4: on a tape, [setDerivative(slot, d)] on a slot within the derivative
    array returns, after it [getDerivative(slot)] reads [d] and every other
    slot reads as before; on a slot beyond the array both raise [OutOfRange]
    and change nothing ([test_set_derivative_slot],
    [test_set_derivative_value], [test_exceptions_outofrange]). *)
Theorem setDerivative_then_getDerivative
    (t : tape_id) (tp : Tape) (s : slot) (d : float) (w : World) :
  tapes w !! t = Some tp ->
  ((s < length (derivatives tp))%nat ->
     exists w',
       Tape_setDerivative t s d w = (Ok tt, w')
       /\ Tape_getDerivative t s w' = (Ok d, w')
       /\ (forall s', s' <> s ->
             fst (Tape_getDerivative t s' w') = fst (Tape_getDerivative t s' w))
       /\ getPosition t w' = (Ok (length (entries tp)), w'))
  /\ ((length (derivatives tp) <= s)%nat ->
        Tape_setDerivative t s d w = (Raise OutOfRange, w)
        /\ Tape_getDerivative t s w = (Raise OutOfRange, w)).
Proof.
  intros Ht. split.
  - intros Hs. destruct (lookup_lt_is_Some_2 _ _ Hs) as [d0 Hd0].
    eexists. split; [eapply run_Tape_setDerivative; eassumption |].
    set (tp' := with_seeded true _).
    assert (Ht' : tapes (World_set_tape t tp' w) !! t = Some tp') by lookup_solve.
    repeat split.
    + rewrite (run_Tape_getDerivative _ _ _ _ Ht'). subst tp'. world_simpl.
      rewrite list_lookup_insert_eq by assumption. reflexivity.
    + intros s' Hne.
      rewrite (run_Tape_getDerivative _ _ _ _ Ht'), (run_Tape_getDerivative _ _ _ _ Ht).
      subst tp'. world_simpl. rewrite list_lookup_insert_ne by congruence.
      reflexivity.
    + rewrite (run_getPosition _ _ _ Ht'). reflexivity.
  - intros Hs. apply lookup_ge_None_2 in Hs. split.
    + unfold Tape_setDerivative. run_tape Ht. rewrite Hs. reflexivity.
    + rewrite (run_Tape_getDerivative _ _ _ _ Ht), Hs. reflexivity.
Qed.

Lemma setDerivative_then_getDerivative_witness :
  (exists w',
     Tape_setDerivative 0%nat 0%nat 1%float
       (snd (registerInput 0%nat 0%nat World_in_tape)) = (Ok tt, w')
     /\ Tape_getDerivative 0%nat 0%nat w' = (Ok 1%float, w')
     /\ (forall s', s' <> 0%nat ->
           fst (Tape_getDerivative 0%nat s' w')
           = fst (Tape_getDerivative 0%nat s'
                    (snd (registerInput 0%nat 0%nat World_in_tape))))
     /\ getPosition 0%nat w' = (Ok 1%nat, w'))
  /\ Tape_setDerivative 0%nat 7%nat 1%float
       (snd (registerInput 0%nat 0%nat World_in_tape))
     = (Raise OutOfRange, snd (registerInput 0%nat 0%nat World_in_tape))
  /\ Tape_getDerivative 0%nat 7%nat
       (snd (registerInput 0%nat 0%nat World_in_tape))
     = (Raise OutOfRange, snd (registerInput 0%nat 0%nat World_in_tape)).
Proof.
  split.
  - apply (proj1 (setDerivative_then_getDerivative 0%nat
             (push_entry OpInput [] (with_active true Tape_empty)).1 0%nat 1%float
             (snd (registerInput 0%nat 0%nat World_in_tape)) eq_refl)).
    cbn. lia.
  - apply (proj2 (setDerivative_then_getDerivative 0%nat
             (push_entry OpInput [] (with_active true Tape_empty)).1 7%nat
             1%float (snd (registerInput 0%nat 0%nat World_in_tape)) eq_refl)).
    cbn. lia.
Defined.

(** X5: [registerInputs(vs)], on an active tape and for distinct variables
    that exist, returns; the variable at index [j] keeps its value and gets
    the slot [position + j], whose derivative is zero; the position moves by
    the number of variables; the other variables and the derivatives stored
    before are as they were. *)
Theorem register_inputs_slots (t : tape_id) (vs : list loc) :
  forall (w : World) (tp : Tape),
    tapes w !! t = Some tp -> active tp = true ->
    Forall (fun l => (l < length (areals w))%nat) vs -> NoDup vs ->
    exists w' tp',
      adj_1st._register_inputs t vs w = (Ok tt, w')
      /\ tapes w' !! t = Some tp' /\ active tp' = true
      /\ length (entries tp') = (length (entries tp) + length vs)%nat
      /\ length (areals w') = length (areals w)
      /\ (forall j l, vs !! j = Some l ->
            exists x, areals w !! l = Some x
              /\ areals w' !! l
                 = Some {| adj_value := adj_value x;
                           adj_registration := Some (t, (length (entries tp) + j)%nat) |})
      /\ (forall l, l ∉ vs -> areals w' !! l = areals w !! l)
      /\ (forall j, (j < length vs)%nat ->
            derivatives tp' !! (length (entries tp) + j)%nat = Some float_zero)
      /\ (forall s, (s < length (entries tp))%nat -> (s < length (derivatives tp))%nat ->
            derivatives tp' !! s = derivatives tp !! s).
Proof.
  unfold adj_1st._register_inputs.
  induction vs as [| v vs IH]; intros w tp Ht Hon Hvs Hnd.
  - exists w, tp. cbn [for_each length]. rewrite Nat.add_0_r.
    repeat split; try assumption; try reflexivity.
    + intros j l Hj. rewrite lookup_nil in Hj. discriminate.
    + intros j Hj. lia.
  - apply Forall_cons in Hvs as [Hv Hvs]. apply NoDup_cons in Hnd as [Hnin Hnd].
    destruct (lookup_lt_is_Some_2 _ _ Hv) as [x Hx].
    cbn [for_each]. rewrite (run_bind _ _ _ _ _ (run_registerInput _ _ _ _ _ Ht Hx Hon)).
    set (x1 := {| adj_value := adj_value x;
                  adj_registration := Some (t, length (entries tp)) |}).
    set (tp1 := (push_entry OpInput [] tp).1).
    set (w1 := World_set_areal v x1 (World_set_tape t tp1 w)).
    assert (Ht1 : tapes w1 !! t = Some tp1) by (subst w1; lookup_solve).
    assert (Hlen1 : length (areals w1) = length (areals w))
      by (subst w1; world_simpl; apply length_insert).
    assert (Hes1 : length (entries tp1) = S (length (entries tp)))
      by (subst tp1; world_simpl; rewrite length_app; cbn [length]; lia).
    assert (Hds1 : length (derivatives tp1) = S (length (entries tp)))
      by (subst tp1; world_simpl; rewrite length_app, length_resize; cbn [length]; lia).
    destruct (IH w1 tp1 Ht1 Hon) as
      (w' & tp' & Hrun & Ht' & Hon' & Hlen & Hars & Hslots & Hframe & Hzero & Hold).
    { rewrite Hlen1. exact Hvs. }
    { exact Hnd. }
    exists w', tp'. rewrite Hrun.
    split; [reflexivity |]. split; [exact Ht' |]. split; [exact Hon' |].
    split; [rewrite Hlen, Hes1; cbn [length]; lia |].
    split; [rewrite Hars; exact Hlen1 |].
    split; [| split; [| split]].
    + intros [| j] l Hj; cbn in Hj.
      * injection Hj as <-. exists x. split; [exact Hx |].
        rewrite (Hframe v Hnin). subst w1. rewrite Nat.add_0_r. lookup_solve.
      * destruct (Hslots j l Hj) as (y & Hy & Hy').
        assert (Hne : v <> l).
        { intros ->. apply Hnin. eapply list_elem_of_lookup_2. exact Hj. }
        subst w1. cbn [areals World_set_areal World_set_tape] in Hy.
        rewrite list_lookup_insert_ne in Hy by exact Hne.
        exists y. split; [exact Hy |].
        replace (length (entries tp) + S j)%nat with (length (entries tp1) + j)%nat
          by lia.
        exact Hy'.
    + intros l Hl. apply not_elem_of_cons in Hl as [Hne Hl].
      rewrite (Hframe l Hl). subst w1. world_simpl.
      apply list_lookup_insert_ne. congruence.
    + intros [| j] Hj.
      * rewrite Nat.add_0_r, Hold by lia.
        subst tp1. world_simpl. apply lookup_fresh_slot.
      * replace (length (entries tp) + S j)%nat with (length (entries tp1) + j)%nat
          by lia.
        apply Hzero. cbn [length] in Hj. lia.
    + intros s Hs Hsd. rewrite Hold by lia.
      subst tp1. world_simpl. apply lookup_older_slot; assumption.
Qed.

Lemma register_inputs_slots_witness :
  exists w' tp',
    adj_1st._register_inputs 0%nat [1%nat; 0%nat] World_two_variables = (Ok tt, w')
    /\ tapes w' !! 0%nat = Some tp' /\ active tp' = true
    /\ length (entries tp') = 2%nat
    /\ length (areals w') = 2%nat
    /\ (forall j l, [1%nat; 0%nat] !! j = Some l ->
          exists x, areals World_two_variables !! l = Some x
            /\ areals w' !! l
               = Some {| adj_value := adj_value x;
                         adj_registration := Some (0%nat, (0 + j)%nat) |})
    /\ (forall l, l ∉ [1%nat; 0%nat] ->
          areals w' !! l = areals World_two_variables !! l)
    /\ (forall j, (j < 2)%nat -> derivatives tp' !! (0 + j)%nat = Some float_zero)
    /\ (forall s, (s < 0)%nat -> (s < 0)%nat ->
          derivatives tp' !! s = derivatives (with_active true Tape_empty) !! s).
Proof.
  apply (register_inputs_slots 0%nat [1%nat; 0%nat] World_two_variables
           (with_active true Tape_empty) eq_refl eq_refl).
  - repeat constructor.
  - apply NoDup_cons. split; [| apply NoDup_singleton].
    intros H%list_elem_of_singleton. discriminate.
Defined.

(** ** The math layer *)

(** A double is not-a-number, infinite or finite, and only one of them. *)
Lemma float_class_exclusive (f : float) :
  (PrimFloat.is_nan f = true /\ PrimFloat.is_infinity f = false
     /\ PrimFloat.is_finite f = false)
  \/ (PrimFloat.is_nan f = false /\ PrimFloat.is_infinity f = true
        /\ PrimFloat.is_finite f = false)
  \/ (PrimFloat.is_nan f = false /\ PrimFloat.is_infinity f = false
        /\ PrimFloat.is_finite f = true).
Proof.
  unfold PrimFloat.is_finite, PrimFloat.is_nan, PrimFloat.is_infinity.
  rewrite !FloatAxioms.eqb_spec, FloatAxioms.abs_spec.
  destruct (Prim2SF f) as [s | s | | s m e]; cbn.
  - destruct s; auto.
  - destruct s; auto.
  - auto.
  - rewrite Z.compare_refl, Pos.compare_refl. destruct s; auto.
Qed.

(** X6: [isnan], [isinf] and [isfinite] of the math layer, on an adjoint
    variable, a forward variable or a plain float, return what the builtin
    predicate gives on the float held; they never raise there, need no
    active tape and change nothing; and exactly one of [isnan], [isinf] and
    [isfinite] returns [True]. *)
Theorem math_predicates_on_held_value (x : pyobj) (v : float) (w : World) :
  (x = PyFloat v
   \/ (exists l a, x = PyAReal l /\ areals w !! l = Some a /\ adj_value a = v)
   \/ (exists r, x = PyFReal r /\ fwd_value r = v)) ->
  math.isnan x w = (Returned (PyBool (PrimFloat.is_nan v)), w)
  /\ math.isinf x w = (Returned (PyBool (PrimFloat.is_infinity v)), w)
  /\ math.isfinite x w = (Returned (PyBool (PrimFloat.is_finite v)), w)
  /\ ((PrimFloat.is_nan v = true /\ PrimFloat.is_infinity v = false
         /\ PrimFloat.is_finite v = false)
      \/ (PrimFloat.is_nan v = false /\ PrimFloat.is_infinity v = true
            /\ PrimFloat.is_finite v = false)
      \/ (PrimFloat.is_nan v = false /\ PrimFloat.is_infinity v = false
            /\ PrimFloat.is_finite v = true)).
Proof.
  intros Hx.
  assert (Hval : xad_autodiff.value x w = (Ok (PyFloat v), w)).
  { destruct Hx as [-> | [(l & a & -> & Hl & <-) | (r & -> & <-)]].
    - reflexivity.
    - apply run_value. exact Hl.
    - reflexivity. }
  unfold math.isnan, math.isinf, math.isfinite, run_then, lift.
  rewrite Hval. repeat split. apply float_class_exclusive.
Qed.

Lemma math_predicates_on_held_value_witness :
  math.isnan (PyAReal 0%nat) World_in_tape = (Returned (PyBool false), World_in_tape)
  /\ math.isinf (PyAReal 0%nat) World_in_tape = (Returned (PyBool false), World_in_tape)
  /\ math.isfinite (PyAReal 0%nat) World_in_tape
     = (Returned (PyBool true), World_in_tape)
  /\ ((false = true /\ false = false /\ true = false)
      \/ (false = false /\ false = true /\ true = false)
      \/ (false = false /\ false = false /\ true = true)).
Proof.
  apply (math_predicates_on_held_value (PyAReal 0%nat) 1%float World_in_tape).
  right. left. exists 0%nat, {| adj_value := 1%float; adj_registration := None |}.
  repeat split.
Defined.

(** Zipping two sequences looks at their common prefix only. *)
Lemma zip_common_prefix {A B} (p : list A) (q : list B) :
  zip (take (min (length p) (length q)) p) (take (min (length p) (length q)) q)
  = zip p q.
Proof.
  revert q. induction p as [| a p IH]; intros [| b q]; cbn; try reflexivity.
  f_equal. apply IH.
Qed.

(** X7: [dist(p, q)] looks at the coordinates up to the length of the
    shorter argument only: the rest of the longer one is neither read nor an
    error.  With an empty argument, [dist] is [sqrt] of the int 0, as
    [hypot] without arguments is. *)
Theorem dist_common_prefix {S E : Type}
    (sqrt : pyobj -> Run S E pyobj) (pow add sub : pyobj -> pyobj -> Run S E pyobj)
    (p q : list pyobj) (s : S) :
  math.dist sqrt pow add sub p q s
  = math.dist sqrt pow add sub
      (take (min (length p) (length q)) p) (take (min (length p) (length q)) q) s
  /\ math.dist sqrt pow add sub p [] s = sqrt (PyInt 0) s
  /\ math.dist sqrt pow add sub [] q s = sqrt (PyInt 0) s
  /\ math.hypot sqrt pow add [] s = sqrt (PyInt 0) s.
Proof.
  unfold math.dist. rewrite zip_common_prefix.
  repeat split. destruct p; reflexivity.
Qed.

(** ** The build script *)

Lemma run_then_assoc {S E A B C} (c : Run S E A) (k : A -> Run S E B)
    (h : B -> Run S E C) s :
  run_then (run_then c k) h s = run_then c (fun a => run_then (k a) h) s.
Proof. unfold run_then. destruct (c s) as [[a | e |] s']; reflexivity. Qed.

Lemma run_each_app {S E A} (body : A -> Run S E unit) (xs ys : list A) s :
  run_each body (xs ++ ys) s
  = run_then (run_each body xs) (fun _ => run_each body ys) s.
Proof.
  revert s. induction xs as [| x xs IH]; intros s; cbn [run_each app].
  - reflexivity.
  - unfold run_then.
    destruct (body x s) as [[[] | e |] s']; [| reflexivity | reflexivity].
    rewrite IH. reflexivity.
Qed.

Section BuildProperties.

Context {X V : Type}.
Variable path_exists : string -> X + bool.
Variable read_text : string -> X + string.
Variable strip : string -> string.
Variable prebuilt_file : string.

(** X8: when [prebuilt_file.txt] can be read and names, once stripped, a file
    that exists, [build] returns and the dictionary holds one extension under
    ["ext_modules"] (named [xad_autodiff._xad_autodiff], with the stripped
    text as its file), the command class under ["cmdclass"] and [False] under
    ["zip_safe"], whatever these keys held before; every other key holds
    what it held; and building once more changes nothing. *)
Theorem build_sets_three_keys (setup_kwargs : gmap string (build.kwvalue V))
    (text : string) :
  read_text prebuilt_file = inr text -> path_exists (strip text) = inr true ->
  exists kwargs',
    build.build path_exists read_text strip prebuilt_file setup_kwargs
    = (Returned tt, kwargs')
    /\ kwargs' !! "ext_modules"%string
       = Some (build.ExtModules
                 [ {| build.name := "xad_autodiff._xad_autodiff";
                      build.sources := ["dont-need-this-source-file.c"%string];
                      build.input_file := strip text |} ])
    /\ kwargs' !! "cmdclass"%string
       = Some (build.Cmdclass {["build_ext"%string := build.Class_build_ext]})
    /\ kwargs' !! "zip_safe"%string = Some (build.Bool false)
    /\ (forall k, k <> "ext_modules"%string -> k <> "cmdclass"%string ->
          k <> "zip_safe"%string -> kwargs' !! k = setup_kwargs !! k)
    /\ build.build path_exists read_text strip prebuilt_file kwargs'
       = (Returned tt, kwargs').
Proof.
  intros Hread Hex.
  assert (Hrun : forall kw : gmap string (build.kwvalue V),
    build.build (X := X) path_exists read_text strip prebuilt_file kw
    = (Returned tt,
       <["zip_safe"%string := build.Bool false]>
         (<["cmdclass"%string
             := build.Cmdclass {["build_ext"%string := build.Class_build_ext]}]>
            (<["ext_modules"%string
                := build.ExtModules
                     [ {| build.name := "xad_autodiff._xad_autodiff";
                          build.sources := ["dont-need-this-source-file.c"%string];
                          build.input_file := strip text |} ]]> kw)))).
  { intros kw. unfold build.build, build.XadExtension_init.
    rewrite Hread. cbv zeta. rewrite Hex. reflexivity. }
  eexists. split; [apply Hrun |].
  split; [| split; [| split; [| split]]].
  - rewrite lookup_insert_ne, lookup_insert_ne by discriminate.
    apply lookup_insert_eq.
  - rewrite lookup_insert_ne by discriminate. apply lookup_insert_eq.
  - apply lookup_insert_eq.
  - intros k H1 H2 H3. rewrite !lookup_insert_ne by congruence. reflexivity.
  - rewrite Hrun. f_equal.
    apply map_eq. intros k.
    destruct (decide (k = "zip_safe"%string)) as [-> | H3];
      [rewrite !lookup_insert_eq; reflexivity |].
    rewrite !(lookup_insert_ne _ "zip_safe"%string) by congruence.
    destruct (decide (k = "cmdclass"%string)) as [-> | H2];
      [rewrite !lookup_insert_eq; reflexivity |].
    rewrite !(lookup_insert_ne _ "cmdclass"%string) by congruence.
    destruct (decide (k = "ext_modules"%string)) as [-> | H1];
      [rewrite !lookup_insert_eq; reflexivity |].
    rewrite !lookup_insert_ne by congruence. reflexivity.
Qed.

(** X9: whenever [build] raises, the dictionary is left as it was, and the
    exception is what the operating system raised on reading
    [prebuilt_file.txt], or what it raised when [XadExtension] asked whether
    the file listed there exists, or the [ValueError] of [XadExtension] that
    names that file, which does not exist. *)
Theorem build_failure_keeps_kwargs
    (setup_kwargs kwargs' : gmap string (build.kwvalue V)) (e : build.build_error X) :
  build.build path_exists read_text strip prebuilt_file setup_kwargs
  = (Raised e, kwargs') ->
  kwargs' = setup_kwargs
  /\ ((exists x, read_text prebuilt_file = inl x /\ e = build.External x)
      \/ (exists text x,
            read_text prebuilt_file = inr text /\ path_exists (strip text) = inl x
            /\ e = build.External x)
      \/ (exists text,
            read_text prebuilt_file = inr text
            /\ path_exists (strip text) = inr false
            /\ e = build.ValueError
                     ("extension file " ++ strip text ++ " does not exist")%string)).
Proof.
  unfold build.build, build.XadExtension_init.
  destruct (read_text prebuilt_file) as [x | text] eqn:Hread.
  - intros [= <- <-]. split; [reflexivity |]. left. exists x. auto.
  - cbv zeta. destruct (path_exists (strip text)) as [x | []] eqn:Hex.
    + intros [= <- <-]. split; [reflexivity |]. right. left. exists text, x. auto.
    + discriminate.
    + intros [= <- <-]. split; [reflexivity |]. right. right. exists text. auto.
Qed.

End BuildProperties.

Lemma build_sets_three_keys_witness :
  exists kwargs',
    build.build sample_path_exists sample_read_text sample_strip "prebuilt_file.txt"
      sample_kwargs
    = (Returned tt, kwargs')
    /\ kwargs' !! "ext_modules"%string
       = Some (build.ExtModules
                 [ {| build.name := "xad_autodiff._xad_autodiff";
                      build.sources := ["dont-need-this-source-file.c"%string];
                      build.input_file := "lib/_xad_autodiff.so" |} ])
    /\ kwargs' !! "cmdclass"%string
       = Some (build.Cmdclass {["build_ext"%string := build.Class_build_ext]})
    /\ kwargs' !! "zip_safe"%string = Some (build.Bool false)
    /\ (forall k, k <> "ext_modules"%string -> k <> "cmdclass"%string ->
          k <> "zip_safe"%string ->
          kwargs' !! k = sample_kwargs !! k)
    /\ build.build sample_path_exists sample_read_text sample_strip
         "prebuilt_file.txt" kwargs'
       = (Returned tt, kwargs').
Proof.
  apply (build_sets_three_keys (X := unit) (V := nat) sample_path_exists
           sample_read_text sample_strip "prebuilt_file.txt" sample_kwargs
           ("lib/_xad_autodiff.so" ++ String (Ascii.ascii_of_nat 10) EmptyString)%string);
    reflexivity.
Defined.

Lemma build_failure_keeps_kwargs_witness :
  sample_kwargs = sample_kwargs
  /\ ((exists x, sample_read_text "prebuilt_file.txt" = inl x
                /\ build.ValueError
                     "extension file lib/_xad_autodiff.so does not exist"
                   = build.External x)
      \/ (exists text x,
            sample_read_text "prebuilt_file.txt" = inr text
            /\ @inr unit bool false = inl x
            /\ build.ValueError
                 "extension file lib/_xad_autodiff.so does not exist"
               = build.External x)
      \/ (exists text,
            sample_read_text "prebuilt_file.txt" = inr text
            /\ @inr unit bool false = inr false
            /\ build.ValueError (X := unit)
                 "extension file lib/_xad_autodiff.so does not exist"
               = build.ValueError
                   ("extension file " ++ sample_strip text ++ " does not exist")%string)).
Proof.
  apply (build_failure_keeps_kwargs (X := unit) (V := nat) (fun _ => inr false)
           sample_read_text sample_strip "prebuilt_file.txt" sample_kwargs
           sample_kwargs
           (build.ValueError "extension file lib/_xad_autodiff.so does not exist")).
  reflexivity.
Defined.

(** X10: when [self.extensions] holds an extension that is no
    [XadExtension], [build_ext.run] handles the extensions before it, in
    order, and then raises [ValueError]: what was copied for them stays, the
    extensions after it are not looked at, and [copy_extensions_to_source] is
    not called, [inplace] or not. *)
Theorem run_stops_at_foreign_extension {S X Other : Type}
    (get_ext_fullname get_ext_filename : build.build_ext Other -> string -> string)
    (joinpath : string -> string -> string) (basename : string -> string)
    (mkdir : string -> Run S (build.build_error X) unit)
    (copy_file : string -> string -> bool -> bool -> Run S (build.build_error X) unit)
    (copy_extensions_to_source : build.build_ext Other -> Run S (build.build_error X) unit)
    (self : build.build_ext Other)
    (before after : list (build.extension Other)) (other : Other) (s : S) :
  build.extensions self = before ++ build.Foreign other :: after ->
  build.run get_ext_fullname get_ext_filename joinpath basename mkdir copy_file
    copy_extensions_to_source self s
  = run_then
      (run_each
         (build.run_extension get_ext_fullname get_ext_filename joinpath basename
            mkdir copy_file self) before)
      (fun _ => run_raise (build.ValueError "Only pre-built extensions supported")) s
  /\ (forall s1,
        run_each
          (build.run_extension get_ext_fullname get_ext_filename joinpath basename
             mkdir copy_file self) before s = (Returned tt, s1) ->
        build.run get_ext_fullname get_ext_filename joinpath basename mkdir copy_file
          copy_extensions_to_source self s
        = (Raised (build.ValueError "Only pre-built extensions supported"), s1)).
Proof.
  intros Hexts.
  assert (Hrun :
    build.run get_ext_fullname get_ext_filename joinpath basename mkdir copy_file
      copy_extensions_to_source self s
    = run_then
        (run_each
           (build.run_extension get_ext_fullname get_ext_filename joinpath basename
              mkdir copy_file self) before)
        (fun _ => run_raise (build.ValueError "Only pre-built extensions supported")) s).
  { unfold build.run. rewrite Hexts.
    unfold run_then at 1. rewrite run_each_app. unfold run_then.
    destruct (run_each _ before s) as [[[] | e |] s1]; reflexivity. }
  split; [exact Hrun |].
  intros s1 Hbefore. rewrite Hrun. unfold run_then. rewrite Hbefore. reflexivity.
Qed.

Lemma run_stops_at_foreign_extension_witness :
  build.run (fun _ n => n) (fun _ n => (n ++ ".so")%string)
    (fun a b => (a ++ "/" ++ b)%string) (fun p => p)
    sample_mkdir sample_copy_file (fun _ => run_ret tt) sample_command []
  = (Raised (build.ValueError "Only pre-built extensions supported"),
     [("lib/_xad_autodiff.so"%string,
       "build/xad_autodiff/xad_autodiff._xad_autodiff.so"%string)]).
Proof.
  apply (proj2 (run_stops_at_foreign_extension (fun _ n => n)
                  (fun _ n => (n ++ ".so")%string)
                  (fun a b => (a ++ "/" ++ b)%string) (fun p => p)
                  sample_mkdir sample_copy_file (fun _ => run_ret tt) sample_command
                  [ build.Prebuilt
                      {| build.name := "xad_autodiff._xad_autodiff";
                         build.sources := ["dont-need-this-source-file.c"%string];
                         build.input_file := "lib/_xad_autodiff.so" |} ]
                  [ build.Prebuilt
                      {| build.name := "xad_autodiff.other";
                         build.sources := ["dont-need-this-source-file.c"%string];
                         build.input_file := "lib/other.so" |} ]
                  tt [] eq_refl)).
  reflexivity.
Defined.

(** ** Derivatives of a product and of a sum *)

Lemma run_computeAdjoints t tp w :
  tapes w !! t = Some tp -> seeded tp = true ->
  computeAdjoints t w
  = (Ok tt,
     World_set_tape t
       (with_derivatives
          (reverse_sweep (drop (recording_start tp) (entries tp)) (derivatives tp))
          tp) w).
Proof.
  intros Ht Hsd. unfold computeAdjoints. run_tape Ht.
  apply run_computeAdjointsTo; assumption.
Qed.

Lemma run_AReal_getValue l x w :
  areals w !! l = Some x -> AReal_getValue l w = (Ok (adj_value x), w).
Proof. intros Hl. unfold AReal_getValue. run_areal Hl. reflexivity. Qed.

Lemma run_AReal_getDerivative_ok th l t t0 s x tp d w :
  active_tape w !! th = Some t -> areals w !! l = Some x ->
  adj_registration x = Some (t0, s) -> tapes w !! t = Some tp ->
  derivatives tp !! s = Some d ->
  AReal_getDerivative th l w = (Ok d, w).
Proof.
  intros Hth Hl Hr Ht Hd.
  rewrite (run_AReal_getDerivative _ _ _ _ _ _ _ _ Hth Hl Hr Ht), Hd. reflexivity.
Qed.

(** Lookups past the update of another variable. *)
Ltac differ_solve :=
  repeat first [ rewrite length_insert | rewrite length_app ]; cbn [length]; lia.

Ltac lookup_solve_past :=
  lazymatch goal with
  | |- _ =>
      world_simpl;
      repeat first
        [ rewrite list_lookup_insert_ne by differ_solve
        | rewrite list_lookup_insert_eq by length_solve
        | rewrite list_lookup_middle by reflexivity
        | rewrite lookup_app_l by length_solve ];
      lookup_solve
  end.

Ltac run_past L := erewrite run_bind by (eapply L; lookup_solve_past).

(** X11: in [test_binary_with_2_active_operands_adj], for all values [x1]
    and [x2] and on a thread without an active tape: with [*] the value is
    [x1 * x2] and the derivatives are [0 + x2 * 1] and [0 + x1 * 1]; with [+]
    the value is [x1 + x2] and both derivatives are [0 + 1 * 1], that is
    1.0. *)
Theorem product_and_sum_derivatives (th : thread) (x1 x2 : float) (w : World) :
  active_tape w !! th = None ->
  fst (test_binary_with_2_active_operands_adj th (AReal_mul th) x1 x2 w)
  = Ok ((x1 * x2)%float, (0 + x2 * 1)%float, (0 + x1 * 1)%float)
  /\ fst (test_binary_with_2_active_operands_adj th (AReal_add th) x1 x2 w)
     = Ok ((x1 + x2)%float, 1%float, 1%float).
Proof.
  intros Hidle.
  split.
  - unfold test_binary_with_2_active_operands_adj, with_new_tape, with_tape.
    run run_Real_new. run run_Real_new. run run_Tape_new. run run_activate.
    world_simpl. unfold finally, AReal_mul.
    run run_registerInput. run_past run_registerInput. run run_newRecording.
    erewrite run_bind
      by (eapply run_binary_op;
          [ eapply run_operand_recording; lookup_solve_past
          | eapply run_operand_recording; lookup_solve_past
          | discriminate | lookup_solve | lookup_solve ]).
    run run_registerOutput. run run_AReal_setDerivative.
    run run_computeAdjoints. run run_AReal_getValue.
    do 2 run_past run_AReal_getDerivative_ok.
    unfold ret at 1. run run_deactivate. reflexivity.
  - unfold test_binary_with_2_active_operands_adj, with_new_tape, with_tape.
    run run_Real_new. run run_Real_new. run run_Tape_new. run run_activate.
    world_simpl. unfold finally, AReal_add.
    run run_registerInput. run_past run_registerInput. run run_newRecording.
    erewrite run_bind
      by (eapply run_binary_op;
          [ eapply run_operand_recording; lookup_solve_past
          | eapply run_operand_recording; lookup_solve_past
          | discriminate | lookup_solve | lookup_solve ]).
    run run_registerOutput. run run_AReal_setDerivative.
    run run_computeAdjoints. run run_AReal_getValue.
    do 2 run_past run_AReal_getDerivative_ok.
    unfold ret at 1. run run_deactivate. reflexivity.
Qed.

Lemma product_and_sum_derivatives_witness :
  fst (test_binary_with_2_active_operands_adj 0%nat (AReal_mul 0%nat)
         5%float 2%float World_init)
  = Ok (10%float, 2%float, 5%float)
  /\ fst (test_binary_with_2_active_operands_adj 0%nat (AReal_add 0%nat)
            5%float 2%float World_init)
     = Ok (7%float, 1%float, 1%float).
Proof.
  apply (product_and_sum_derivatives 0%nat 5%float 2%float World_init).
  reflexivity.
Defined.

(** ** Copies of a variable *)

(** X12: [Real(v).__getnewargs__()] is the tuple of [v] alone, for an
    int [v] that a double can take as the double it converts to
    ([test_getnewargs_method]); and [Real] called on the
    [__getnewargs__()] of a variable gives a new variable with the same
    value that is not registered, whether the original is or not; the
    original and the tapes are as they were, and when the value is no NaN
    the copy hashes like the original. *)
Theorem getnewargs_round_trip (w : World) :
  (forall v,
     (x <- Real_of (PyFloat v) ;; adj_1st._getnewargs x) w
     = (Ok [PyFloat v],
        World_new_areal {| adj_value := v; adj_registration := None |} w))
  /\ (forall z,
        PrimFloat.is_infinity (float_of_int z) = false ->
        (x <- Real_of (PyInt z) ;; adj_1st._getnewargs x) w
        = (Ok [PyFloat (float_of_int z)],
           World_new_areal
             {| adj_value := float_of_int z; adj_registration := None |} w))
  /\ (forall l a,
        areals w !! l = Some a ->
        let w' := World_new_areal
                    {| adj_value := adj_value a; adj_registration := None |} w in
        (args <- adj_1st._getnewargs l ;; Real_call args) w
        = (Ok (length (areals w)), w')
        /\ areals w' !! l = Some a
        /\ tapes w' = tapes w
        /\ active_tape w' = active_tape w
        /\ (PrimFloat.is_nan (adj_value a) = false ->
            forall p q,
              hash p (PyAReal (length (areals w))) w' = hash q (PyAReal l) w')).
Proof.
  split; [| split].
  - intros v. unfold Real_of. run run_Real_new.
    unfold adj_1st._getnewargs, adj_1st.value.
    rewrite bind_assoc. run run_AReal_getValue. reflexivity.
  - intros z Hfin. unfold Real_of. rewrite Hfin.
    run run_Real_new. unfold adj_1st._getnewargs, adj_1st.value.
    rewrite bind_assoc. run run_AReal_getValue. reflexivity.
  - intros l a Hl w'.
    assert (Hl' : areals w' !! l = Some a) by (subst w'; lookup_solve).
    assert (Hc : areals w' !! length (areals w)
                 = Some {| adj_value := adj_value a; adj_registration := None |})
      by (subst w'; lookup_solve).
    split; [| split; [| split; [| split]]]; try reflexivity.
    + unfold adj_1st._getnewargs, adj_1st.value.
      rewrite !bind_assoc. run run_AReal_getValue. reflexivity.
    + exact Hl'.
    + intros Hnan p q.
      rewrite (run_hash p (PyAReal (length (areals w))) (adj_value a) w')
        by (eexists; split; [exact Hc | reflexivity]).
      rewrite (run_hash q (PyAReal l) (adj_value a) w')
        by (eexists; split; [exact Hl' | reflexivity]).
      rewrite (Py_HashDouble_eqb p q (adj_value a) (adj_value a)); [reflexivity |].
      unfold PrimFloat.is_nan in Hnan. apply negb_false_iff in Hnan. exact Hnan.
Qed.

(** X13: when [float.fromhex] gives back the float that [float.hex] was
    called on, [Real.fromhex(x.hex())] is a new unregistered variable holding
    the value of [x], in adjoint mode, and a variable holding the value of
    [x] with a derivative of zero in forward mode; and on a string that
    [float.fromhex] rejects, [Real.fromhex] raises what it raises and creates
    no variable. *)
Theorem fromhex_of_hex (float_hex : float -> string)
    (float_fromhex : string -> result raised float) (w : World) :
  (forall l a,
     areals w !! l = Some a ->
     float_fromhex (float_hex (adj_value a)) = Returned (adj_value a) ->
     run_then (hex_methods.adj_hex float_hex l)
       (hex_methods.adj_fromhex float_fromhex) w
     = (Returned (length (areals w)),
        World_new_areal {| adj_value := adj_value a; adj_registration := None |} w))
  /\ (forall r,
        float_fromhex (float_hex (fwd_value r)) = Returned (fwd_value r) ->
        run_then (hex_methods.fwd_hex float_hex r)
          (hex_methods.fwd_fromhex float_fromhex) w
        = (Returned {| fwd_value := fwd_value r; fwd_derivative := 0%float |}, w))
  /\ (forall hexstr e,
        float_fromhex hexstr = Raised e ->
        hex_methods.adj_fromhex float_fromhex hexstr w = (Raised e, w)
        /\ hex_methods.fwd_fromhex float_fromhex hexstr w = (Raised e, w)).
Proof.
  split; [| split].
  - intros l a Hl Hrt.
    unfold hex_methods.adj_hex, hex_methods.adj_fromhex, run_then, lift, run_ret,
      run_pure.
    rewrite (run_AReal_getValue _ _ _ Hl), Hrt. reflexivity.
  - intros r Hrt.
    unfold hex_methods.fwd_hex, hex_methods.fwd_fromhex, run_then, lift, run_ret,
      run_pure, FReal_getValue, ret.
    rewrite Hrt. reflexivity.
  - intros hexstr e He.
    unfold hex_methods.adj_fromhex, hex_methods.fwd_fromhex, run_then, run_pure.
    rewrite He. split; reflexivity.
Qed.

(** ** The free function [derivative] and the tape *)

(** X14: [derivative(x)] on an adjoint variable raises [NoTapeException] on a
    thread without an active tape, and [OutOfRange] when there is an active
    tape but the variable is not registered; the state is left as it was;
    [value(x)] returns the value in both situations.  On a forward variable
    [derivative(x)] returns in every state. *)
Theorem derivative_and_the_active_tape (th : thread) (l : loc) (a : AReal) (w : World) :
  areals w !! l = Some a ->
  xad_autodiff.value (PyAReal l) w = (Ok (PyFloat (adj_value a)), w)
  /\ (active_tape w !! th = None ->
        xad_autodiff.derivative th (PyAReal l) w = (Raise NoTapeException, w))
  /\ (forall t, active_tape w !! th = Some t -> adj_registration a = None ->
        xad_autodiff.derivative th (PyAReal l) w = (Raise OutOfRange, w))
  /\ (forall r, xad_autodiff.derivative th (PyFReal r) w
                = (Ok (PyFloat (fwd_derivative r)), w)).
Proof.
  intros Hl. split; [apply run_value; exact Hl |].
  split; [| split].
  - intros Hidle.
    unfold xad_autodiff.derivative, getDerivative, AReal_getDerivative. cbn.
    rewrite bind_assoc, run_get_world, Hidle. reflexivity.
  - intros t Hth Hreg.
    unfold xad_autodiff.derivative, getDerivative, AReal_getDerivative. cbn.
    rewrite bind_assoc, run_get_world, Hth. rewrite bind_assoc. run_areal Hl.
    rewrite Hreg. reflexivity.
  - reflexivity.
Qed.

Lemma derivative_and_the_active_tape_witness :
  xad_autodiff.value (PyAReal 0%nat) World_in_tape
  = (Ok (PyFloat 1%float), World_in_tape)
  /\ (active_tape World_in_tape !! 1%nat = None ->
        xad_autodiff.derivative 1%nat (PyAReal 0%nat) World_in_tape
        = (Raise NoTapeException, World_in_tape))
  /\ (forall t, active_tape World_in_tape !! 1%nat = Some t ->
        adj_registration {| adj_value := 1%float; adj_registration := None |} = None ->
        xad_autodiff.derivative 1%nat (PyAReal 0%nat) World_in_tape
        = (Raise OutOfRange, World_in_tape))
  /\ (forall r, xad_autodiff.derivative 1%nat (PyFReal r) World_in_tape
                = (Ok (PyFloat (fwd_derivative r)), World_in_tape)).
Proof.
  apply (derivative_and_the_active_tape 1%nat 0%nat
           {| adj_value := 1%float; adj_registration := None |} World_in_tape).
  reflexivity.
Defined.

Lemma fromhex_of_hex_witness :
  run_then (hex_methods.adj_hex sample_float_hex 0%nat)
    (hex_methods.adj_fromhex sample_float_fromhex) World_in_tape
  = (Returned 1%nat,
     World_new_areal {| adj_value := 1%float; adj_registration := None |}
       World_in_tape)
  /\ hex_methods.adj_fromhex sample_float_fromhex "0x" World_in_tape
     = (Raised (ValueError "invalid hexadecimal floating-point string"),
        World_in_tape).
Proof.
  split.
  - apply (proj1 (fromhex_of_hex sample_float_hex sample_float_fromhex World_in_tape)
             0%nat {| adj_value := 1%float; adj_registration := None |});
      reflexivity.
  - apply (proj2 (proj2 (fromhex_of_hex sample_float_hex sample_float_fromhex
                           World_in_tape))
             "0x"%string (ValueError "invalid hexadecimal floating-point string")).
    reflexivity.
Defined.

(** ** Computing adjoints without a seed *)

Lemma run_computeAdjoints_not_seeded t tp w :
  tapes w !! t = Some tp -> seeded tp = false ->
  computeAdjoints t w = (Raise DerivativesNotInitialized, w).
Proof.
  intros Ht Hsd. unfold computeAdjoints, computeAdjointsTo.
  run_tape Ht. run_tape Ht. rewrite Hsd. reflexivity.
Qed.

Lemma run_bind_raise {A B} (c : M A) (k : A -> M B) w e w' :
  c w = (Raise e, w') -> bind c k w = (Raise e, w').
Proof. intros H. unfold bind. rewrite H. reflexivity. Qed.

(** X15: in [test_exceptions_adjoints_not_initialized], for every value of
    [x] and on a thread without an active tape: registering, recording
    [y = x * x] and registering the output seed no derivative, so
    [computeAdjoints] raises [DerivativesNotInitialized]; the [with] block
    ends normally and the tape is inactive after it. *)
Theorem computeAdjoints_needs_a_seed (th : thread) (v : float) (w : World) :
  active_tape w !! th = None ->
  exists w',
    test_exceptions_adjoints_not_initialized th v w
    = (Ok (inl DerivativesNotInitialized), w')
    /\ active_tape w' !! th = None
    /\ isActive (length (tapes w)) w' = (Ok false, w').
Proof.
  intros Hidle.
  unfold test_exceptions_adjoints_not_initialized, with_new_tape, with_tape.
  run run_Tape_new. run run_activate.
  world_simpl. set (t := length (tapes w)).
  unfold finally, AReal_mul.
  erewrite run_attempt_raise.
  2:{ run run_Real_new. run run_registerInput. run run_newRecording.
      run_op. run run_registerOutput.
      eapply run_computeAdjoints_not_seeded; [lookup_solve | reflexivity]. }
  run run_deactivate.
  eexists. split; [reflexivity |].
  split; [world_simpl; apply lookup_delete_eq |].
  unfold isActive. erewrite run_bind by (eapply run_get_tape; lookup_solve).
  reflexivity.
Qed.

Lemma computeAdjoints_needs_a_seed_witness :
  exists w',
    test_exceptions_adjoints_not_initialized 0%nat 1%float World_init
    = (Ok (inl DerivativesNotInitialized), w')
    /\ active_tape w' !! 0%nat = None
    /\ isActive (length (tapes World_init)) w' = (Ok false, w').
Proof.
  apply (computeAdjoints_needs_a_seed 0%nat 1%float World_init). reflexivity.
Defined.

(** ** Derivatives of a sum of any length *)

Lemma run_for_map_Real_new (xs : list float) :
  forall w,
    for_map Real_new xs w
    = (Ok (seq (length (areals w)) (length xs)),
       {| areals := areals w
                    ++ ((fun v => {| adj_value := v; adj_registration := None |}) <$> xs);
          tapes := tapes w; active_tape := active_tape w |}).
Proof.
  induction xs as [| x xs IH]; intros w.
  - cbn [for_map fmap list_fmap length seq]. rewrite app_nil_r.
    destruct w; reflexivity.
  - cbn [for_map]. rewrite (run_bind _ _ _ _ _ (run_Real_new x w)).
    rewrite (run_bind _ _ _ _ _ (IH _)). unfold ret. world_simpl.
    rewrite length_app. cbn [length seq fmap list_fmap].
    rewrite Nat.add_1_r, <- app_assoc. reflexivity.
Qed.

Lemma run_for_map_same {A B} (f : A -> M B) (xs : list A) (b : B) w :
  (forall x, x ∈ xs -> f x w = (Ok b, w)) ->
  for_map f xs w = (Ok (replicate (length xs) b), w).
Proof.
  induction xs as [| x xs IH]; intros Hf.
  - reflexivity.
  - cbn [for_map]. rewrite (run_bind _ _ _ _ _ (Hf x (list_elem_of_here _ _))).
    rewrite (run_bind _ _ _ _ _ (IH (fun y Hy => Hf y (list_elem_of_further _ _ _ Hy)))).
    reflexivity.
Qed.

Lemma sum_entries_S n k : sum_entries n (S k) = sum_entries n k ++ [sum_entry n k].
Proof. unfold sum_entries. rewrite seq_S, fmap_app. reflexivity. Qed.

Lemma sum_floats_snoc xs k v :
  xs !! k = Some v ->
  sum_floats (take (S k) xs) = (sum_floats (take k xs) + v)%float.
Proof.
  intros Hk. unfold sum_floats. rewrite (take_S_r _ _ _ Hk), fold_left_app.
  reflexivity.
Qed.

Lemma lookup_sweep_state n m i :
  (i < 2 * n)%nat ->
  sweep_state n m !! i
  = Some (if decide ((m <= i < n) \/ (n + m <= i + 1))%nat
          then float_one else float_zero).
Proof.
  intros Hi. unfold sweep_state. rewrite list_lookup_fmap, lookup_seq_lt by exact Hi.
  reflexivity.
Qed.

Lemma lookup_sweep_state_ge n m i :
  (2 * n <= i)%nat -> sweep_state n m !! i = None.
Proof.
  intros Hi. apply lookup_ge_None_2. unfold sweep_state.
  rewrite length_fmap, length_seq. exact Hi.
Qed.

(** One entry of the sum, visited in the reverse pass. *)
Lemma propagate_sum_entry n m :
  (m < n)%nat ->
  propagate (sum_entry n m) (sweep_state n (S m)) = sweep_state n m.
Proof.
  intros Hm. unfold propagate, sum_entry. cbn [output inputs].
  rewrite lookup_sweep_state by lia.
  rewrite decide_True by lia. cbn [default].
  apply list_eq. intros i.
  destruct (decide (i < 2 * n)%nat) as [Hi | Hi].
  - destruct m as [| m']; cbn [fold_left fst snd]; unfold accumulate;
      rewrite !list_lookup_alter; rewrite ?lookup_sweep_state by lia;
      repeat case_decide; try lia; reflexivity.
  - destruct m as [| m']; cbn [fold_left fst snd]; unfold accumulate;
      rewrite !list_lookup_alter; repeat case_decide; try lia;
      rewrite !(lookup_sweep_state_ge _ _ i) by lia; reflexivity.
Qed.

(** The reverse pass over the entries of the sum from the [m]-th on. *)
Lemma reverse_sweep_sum_entries n d :
  forall m, (m + d = n)%nat ->
    reverse_sweep (sum_entry n <$> seq m d) (sweep_state n n) = sweep_state n m.
Proof.
  induction d as [| d IH]; intros m Hm.
  - replace m with n by lia. reflexivity.
  - cbn [seq fmap list_fmap reverse_sweep fold_right].
    change (fold_right propagate (sweep_state n n) (sum_entry n <$> seq (S m) d))
      with (reverse_sweep (sum_entry n <$> seq (S m) d) (sweep_state n n)).
    rewrite IH by lia. apply propagate_sum_entry. lia.
Qed.

(** The seed on the last running sum. *)
Lemma sweep_state_seed n' :
  <[(S n' + n')%nat := 1%float]> (replicate (S n' + S n') float_zero)
  = sweep_state (S n') (S n').
Proof.
  apply list_eq. intros i.
  destruct (decide (i < 2 * S n')%nat) as [Hi | Hi].
  - rewrite lookup_sweep_state by exact Hi.
    destruct (decide (i = S n' + n')%nat) as [-> | Hne].
    + rewrite list_lookup_insert_eq by (rewrite length_replicate; lia).
      rewrite decide_True by lia. reflexivity.
    + rewrite list_lookup_insert_ne by congruence.
      rewrite lookup_replicate_2 by lia.
      rewrite decide_False by lia. reflexivity.
  - rewrite lookup_sweep_state_ge by lia.
    apply lookup_ge_None_2. rewrite length_insert, length_replicate. lia.
Qed.

(** The registration loop of [test_sum_adj]. *)
Lemma register_loop_spec th t base (xs : list float) m :
  forall r w,
    (r + m = length xs)%nat -> reg_state th t base xs r w ->
    exists w',
      for_each (registerInput t) (seq (base + r) m) w = (Ok tt, w')
      /\ reg_state th t base xs (length xs) w'.
Proof.
  induction m as [| m IH]; intros r w Hrm Hst.
  - exists w. replace (length xs) with r by lia. split; [reflexivity | exact Hst].
  - destruct Hst as (Hth & Hlen & Hvars & tp & Ht & Hon & Hes & Hds).
    destruct (lookup_lt_is_Some_2 xs r ltac:(lia)) as [v Hv].
    pose proof (Hvars r v Hv) as Hx. rewrite decide_False in Hx by lia.
    cbn [seq for_each].
    rewrite (run_bind _ _ _ _ _ (run_registerInput _ _ _ _ _ Ht Hx Hon)).
    replace (S (base + r)) with (base + S r)%nat by lia.
    apply IH; [lia |].
    split; [exact Hth |]. split; [world_simpl; rewrite length_insert; exact Hlen |].
    split.
    + intros j v' Hj. world_simpl.
      destruct (decide (j = r)) as [-> | Hne].
      * rewrite list_lookup_insert_eq by lia.
        rewrite decide_True by lia. rewrite Hes. congruence.
      * rewrite list_lookup_insert_ne by lia. rewrite (Hvars j v' Hj).
        destruct (decide (j < r)%nat); [rewrite decide_True by lia
                                        | rewrite decide_False by lia]; reflexivity.
    + eexists. split; [lookup_solve |]. world_simpl.
      split; [exact Hon |]. split; [rewrite length_app; cbn [length]; lia |].
      rewrite Hes, Hds, resize_replicate. symmetry. apply replicate_S_end.
Qed.

(** One addition of [sum], and the ones after it. *)
Lemma sum_loop_spec th t base (xs : list float) m :
  forall k acc w,
    (k + m = length xs)%nat -> sum_state th t base xs k acc w ->
    exists acc' w',
      for_fold (fun acc item => y <- AReal_add th acc item ;; ret (PyAReal y))
        (PyAReal <$> seq (base + k) m) acc w
      = (Ok acc', w')
      /\ sum_state th t base xs (length xs) acc' w'.
Proof.
  induction m as [| m IH]; intros k acc w Hkm Hst.
  - exists acc, w. replace (length xs) with k by lia.
    split; [reflexivity | exact Hst].
  - destruct Hst as (Hth & Hlen & Hvars & Hacc & tp & Ht & Hrec & Hes & Hlog & Hds).
    destruct (lookup_lt_is_Some_2 xs k ltac:(lia)) as [v Hv].
    pose proof (Hvars k v Hv) as Hx.
    cbn [seq fmap list_fmap for_fold].
    assert (Hitem : operand th (PyAReal (base + k)%nat) w = (Ok (v, Some k), w)).
    { eapply (run_operand_recording th _ t k _ w Hth Hx). reflexivity. }
    replace (S (base + k)) with (base + S k)%nat by lia.
    destruct k as [| k'].
    + (* the first addition: the int 0 on the left *)
      subst acc. rewrite bind_assoc. unfold AReal_add at 1.
      erewrite run_bind
        by (eapply run_binary_op;
            [ reflexivity | exact Hitem | discriminate | exact Hth | exact Ht ]).
      rewrite bind_ret_l.
      apply IH; [lia |].
      split; [exact Hth |]. split; [world_simpl; rewrite length_app; cbn [length]; lia |].
      split.
      { intros j v' Hj. world_simpl.
        rewrite lookup_app_l by (apply lookup_lt_Some in Hj; lia).
        exact (Hvars j v' Hj). }
      split.
      { rewrite Nat.add_0_r in Hlen |- *. split; [rewrite Hlen; reflexivity |].
        world_simpl. rewrite <- Hlen, list_lookup_middle by reflexivity.
        rewrite (sum_floats_snoc xs 0 v Hv). cbn [partial fst snd].
        rewrite Hes. reflexivity. }
      eexists. split; [lookup_solve |]. world_simpl.
      split; [exact Hrec |]. split; [rewrite length_app; cbn [length]; lia |].
      split.
      { rewrite drop_app_le by lia. rewrite Hlog, sum_entries_S, Hes.
        reflexivity. }
      rewrite Hes, Hds, resize_replicate.
      replace (length xs + 1)%nat with (S (length xs + 0)) by lia.
      symmetry. apply replicate_S_end.
    + (* a later addition: the running sum on the left *)
      destruct Hacc as [-> Hsum].
      assert (Hrun : operand th (PyAReal (base + length xs + k')%nat) w
                     = (Ok (sum_floats (take (S k') xs), Some (length xs + k')%nat), w)).
      { eapply (run_operand_recording th _ t _ _ w Hth Hsum). reflexivity. }
      rewrite bind_assoc. unfold AReal_add at 1.
      erewrite run_bind
        by (eapply run_binary_op;
            [ exact Hrun | exact Hitem | discriminate | exact Hth | exact Ht ]).
      rewrite bind_ret_l.
      apply IH; [lia |].
      split; [exact Hth |]. split; [world_simpl; rewrite length_app; cbn [length]; lia |].
      split.
      { intros j v' Hj. world_simpl.
        rewrite lookup_app_l by (apply lookup_lt_Some in Hj; lia).
        exact (Hvars j v' Hj). }
      split.
      { split; [rewrite Hlen; f_equal; lia |].
        world_simpl.
        replace (base + length xs + S k')%nat with (length (areals w)) by lia.
        rewrite list_lookup_middle by reflexivity.
        rewrite (sum_floats_snoc xs (S k') v Hv), Hes. reflexivity. }
      eexists. split; [lookup_solve |]. world_simpl.
      split; [exact Hrec |]. split; [rewrite length_app; cbn [length]; lia |].
      split.
      { rewrite drop_app_le by lia. rewrite Hlog, (sum_entries_S _ (S k')), Hes.
        reflexivity. }
      rewrite Hes, Hds, resize_replicate.
      replace (length xs + S (S k'))%nat with (S (length xs + S k')) by lia.
      symmetry. apply replicate_S_end.
Qed.

(** From the end of the additions to the results of [test_sum_adj]. *)
Lemma sum_results_spec th t base (xs : list float) acc w :
  xs <> [] -> sum_state th t base xs (length xs) acc w ->
  exists w',
    match acc with
    | PyAReal y_ad =>
        registerOutput t y_ad ;;
        AReal_setDerivative th y_ad 1%float ;;
        computeAdjoints t ;;
        y <- AReal_getValue y_ad ;;
        ds <- for_map (AReal_getDerivative th) (seq base (length xs)) ;;
        ret (y, ds)
    | _ => undefined
    end w
    = (Ok (sum_floats xs, replicate (length xs) 1%float), w')
    /\ active_tape w' !! th = Some t /\ is_Some (tapes w' !! t).
Proof.
  intros Hne (Hth & Hlen & Hvars & Hacc & tp & Ht & Hrec & Hes & Hlog & Hds).
  remember (length xs) as n eqn:Hn in *.
  destruct n as [| n'].
  { symmetry in Hn. apply nil_length_inv in Hn. contradiction. }
  destruct Hacc as [-> Hy].
  rewrite take_ge in Hy by lia.
  assert (Hzero : derivatives tp !! (S n' + n')%nat = Some float_zero).
  { rewrite Hds. apply lookup_replicate_2. lia. }
  assert (Hsweep :
    reverse_sweep (drop (recording_start tp) (entries tp))
      (<[(S n' + n')%nat := 1%float]> (derivatives tp))
    = sweep_state (S n') 0).
  { rewrite Hrec, Hlog, Hds, sweep_state_seed.
    apply (reverse_sweep_sum_entries (S n') (S n') 0). lia. }
  erewrite run_bind
    by (eapply run_registerOutput; [exact Ht | exact Hy | eexists; reflexivity]).
  erewrite run_bind
    by (eapply run_AReal_setDerivative;
        [exact Hth | exact Hy | reflexivity | exact Ht | exact Hzero]).
  run run_computeAdjoints. world_simpl. rewrite Hsweep.
  erewrite run_bind by (eapply run_AReal_getValue; world_simpl; exact Hy).
  erewrite run_bind.
  2:{ apply run_for_map_same with (b := 1%float).
      intros l [Hl1 Hl2]%elem_of_seq.
      destruct (lookup_lt_is_Some_2 xs (l - base) ltac:(lia)) as [v Hv].
      pose proof (Hvars _ _ Hv) as Hx.
      replace (base + (l - base))%nat with l in Hx by lia.
      eapply run_AReal_getDerivative_ok;
        [ exact Hth | world_simpl; exact Hx | reflexivity | lookup_solve | ].
      world_simpl. rewrite lookup_sweep_state by lia.
      rewrite decide_True by lia. reflexivity. }
  rewrite length_seq. eexists. split; [reflexivity |].
  split; [exact Hth |]. world_simpl. eexists. lookup_solve.
Qed.

(** X16: in [test_sum_adj], for any list of values that is not empty and
    on a thread without an active tape: the value of the sum is the values
    added from the left to the double of 0, and after the reverse pass from
    the seed 1.0 on the sum the derivative of every input is 1.0. *)
Theorem sum_derivatives_are_one (th : thread) (xs : list float) (w : World) :
  active_tape w !! th = None -> xs <> [] ->
  fst (test_sum_adj th xs w) = Ok (sum_floats xs, replicate (length xs) 1%float).
Proof.
  intros Hidle Hne. unfold test_sum_adj, with_new_tape, with_tape.
  run run_Tape_new. run run_activate. world_simpl. unfold finally.
  set (t := length (tapes w)).
  set (W1 := World_set_active_tape _ _).
  set (base := length (areals w)).
  assert (Hth1 : active_tape W1 !! th = Some t) by (subst W1; lookup_solve).
  assert (Ht1 : tapes W1 !! t = Some (with_active true Tape_empty))
    by (subst W1 t; lookup_solve).
  rewrite (run_bind _ _ _ _ _ (run_for_map_Real_new xs W1)).
  set (W2 := mkWorld _ _ _).
  (* the inputs are registered *)
  destruct (register_loop_spec th t base xs (length xs) 0%nat W2 eq_refl)
    as (W3 & Hrun3 & Hth3 & Hlen3 & Hvars3 & tp3 & Ht3 & Hon3 & Hes3 & Hds3).
  { split; [exact Hth1 |].
    split; [subst W2; world_simpl; rewrite length_app, length_fmap; reflexivity |].
    split.
    - intros j v Hj. subst W2 W1. world_simpl.
      rewrite lookup_app_r by (fold base; lia).
      fold base. replace (base + j - base)%nat with j by lia.
      rewrite list_lookup_fmap, Hj. reflexivity.
    - exists (with_active true Tape_empty). repeat split. exact Ht1. }
  rewrite Nat.add_0_r in Hrun3.
  change (length (areals W1)) with base.
  rewrite (run_bind _ _ _ _ _ Hrun3).
  rewrite (run_bind _ _ _ _ _ (run_newRecording _ _ _ Ht3)).
  (* the additions *)
  destruct (sum_loop_spec th t base xs (length xs) 0%nat (PyInt 0)
              (World_set_tape t (with_recording_start (length (entries tp3)) tp3) W3)
              eq_refl)
    as (acc & W5 & Hrun5 & Hst5).
  { split; [exact Hth3 |]. split; [world_simpl; lia |].
    split.
    - intros j v Hj. world_simpl. rewrite (Hvars3 j v Hj).
      rewrite decide_True by (apply lookup_lt_Some in Hj; exact Hj). reflexivity.
    - split; [reflexivity |]. eexists. split; [lookup_solve |]. world_simpl.
      split; [exact Hes3 |]. split; [lia |].
      split; [apply drop_ge; lia |].
      rewrite Nat.add_0_r. exact Hds3. }
  rewrite Nat.add_0_r in Hrun5. unfold sum_adj.
  rewrite (run_bind _ _ _ _ _ Hrun5).
  destruct (sum_results_spec th t base xs acc W5 Hne Hst5)
    as (W6 & Hrun6 & Hth6 & tp6 & Ht6).
  rewrite Hrun6.
  rewrite (run_bind _ _ _ _ _ (run_deactivate _ _ _ _ Hth6 Ht6)). reflexivity.
Qed.

Lemma sum_derivatives_are_one_witness :
  fst (test_sum_adj 0%nat [(-3.1)%float; 4%float; 2.4%float] World_init)
  = Ok (sum_floats [(-3.1)%float; 4%float; 2.4%float], replicate 3 1%float).
Proof.
  apply (sum_derivatives_are_one 0%nat [(-3.1)%float; 4%float; 2.4%float] World_init).
  - reflexivity.
  - discriminate.
Defined.
